(** * Wave Terminal MCP server and MCP status checker

    A shallow embedding of
      - [src/mcp-servers/terminal-mcp.py]  (command executor, analyzer,
        HTTP dispatcher), and
      - [src/scripts/check_mcp_servers.py] (health poller),
    together with the properties of the specification that concern them.

    Python values are embedded as [pyval]; a dict is a [gmap string pyval];
    a call that may raise is a computation in the [res] monad, whose
    [try_except] follows Python's handler selection by [isinstance].
    A Python [str] is represented by the bytes of its UTF-8 encoding; the
    needles searched by the analyzer are ASCII, for which substring search
    on code points and on UTF-8 bytes agree. *)

From Stdlib Require Import ZArith String List Ascii Bool Lia.
From stdpp Require Import base option gmap strings list pretty.

#[local] Set Warnings "-register-all".
#[local] Open Scope string_scope.
#[local] Open Scope Z_scope.

(* ===================================================================== *)
(** ** Python values, exceptions and the result monad                     *)
(* ===================================================================== *)

Module Py.

(** The values that flow through the two programs: what [json.loads]
    yields and what the result dicts hold. *)
Inductive pyval : Type :=
| PNone
| PBool (b : bool)
| PInt (z : Z)
| PStr (s : string)
| PList (l : list pyval)
| PDict (d : gmap string pyval).

(** Truth value of an object, as used by [cwd or os.getcwd()]. *)
Definition truthy (v : pyval) : bool :=
  match v with
  | PNone => false
  | PBool b => b
  | PInt z => negb (z =? 0)
  | PStr s => negb (String.eqb s "")
  | PList l => match l with [] => false | _ => true end
  | PDict d => negb (bool_decide (d = ∅))
  end.

(** A dict display [{k1: v1, ..., kn: vn}]: keys are stored left to right,
    a later key overwriting an earlier equal one. *)
Definition mkdict (kvs : list (string * pyval)) : gmap string pyval :=
  foldl (fun m kv => <[kv.1 := kv.2]> m) ∅ kvs.

(** The exception classes that occur in the two programs, with the part of
    Python's class hierarchy they sit in.  [SocketTimeout] is
    [socket.timeout]; [TimeoutExpired] is [subprocess.TimeoutExpired].
    [KeyboardInterrupt] and [SystemExit] derive from [BaseException] only:
    an [except Exception] clause does not catch them. *)
Inductive exc_class : Type :=
| BaseException
| Exception
| OSError
| ConnectionError
| ConnectionRefusedError
| SocketTimeout
| ValueError
| JSONDecodeError
| UnicodeError
| UnicodeDecodeError
| UnicodeEncodeError
| SubprocessError
| TimeoutExpired
| TypeError
| AttributeError
| RuntimeError
| LookupError
| KeyError
| KeyboardInterrupt
| SystemExit.

#[global] Instance exc_class_eq_dec : EqDecision exc_class.
Proof. solve_decision. Defined.

(** Direct base class. *)
Definition base_of (c : exc_class) : option exc_class :=
  match c with
  | BaseException => None
  | Exception => Some BaseException
  | OSError => Some Exception
  | ConnectionError => Some OSError
  | ConnectionRefusedError => Some ConnectionError
  | SocketTimeout => Some OSError
  | ValueError => Some Exception
  | JSONDecodeError => Some ValueError
  | UnicodeError => Some ValueError
  | UnicodeDecodeError => Some UnicodeError
  | UnicodeEncodeError => Some UnicodeError
  | SubprocessError => Some Exception
  | TimeoutExpired => Some SubprocessError
  | TypeError => Some Exception
  | AttributeError => Some Exception
  | RuntimeError => Some Exception
  | LookupError => Some Exception
  | KeyError => Some LookupError
  | KeyboardInterrupt => Some BaseException
  | SystemExit => Some BaseException
  end.

(** [issubclass c d], walking up the (depth at most 4) hierarchy. *)
Fixpoint issubclass_fuel (fuel : nat) (c d : exc_class) : bool :=
  bool_decide (c = d) ||
  match fuel with
  | O => false
  | S n => match base_of c with
           | Some b => issubclass_fuel n b d
           | None => false
           end
  end.

Definition issubclass : exc_class -> exc_class -> bool := issubclass_fuel 5.

(** A raised exception: its class and [str(e)]. *)
Record exc : Type := mkExc { exc_cls : exc_class; exc_str : string }.

Definition isinstance (e : exc) (c : exc_class) : bool :=
  issubclass (exc_cls e) c.

(** Outcome of a call: a value, or a raised exception. *)
Inductive res (A : Type) : Type :=
| Return (a : A)
| Raise (e : exc).
Arguments Return {A} a.
Arguments Raise {A} e.

(** Sequencing: the first exception raised ends the computation.  With
    these instances [x ← m; k] reads as the statement sequence
    [x = m(); k]. *)
#[global] Instance res_ret : MRet res := fun A a => Return a.
#[global] Instance res_bind : MBind res := fun A B k m =>
  match m with
  | Return a => k a
  | Raise e => Raise e
  end.

(** One [except (C1, ..., Cn) as e: body] clause. *)
Definition handler (A : Type) : Type := (list exc_class * (exc -> res A))%type.

(** First clause, top to bottom, one of whose classes the exception is an
    instance of. *)
Fixpoint select_handler {A} (hs : list (handler A)) (e : exc)
  : option (exc -> res A) :=
  match hs with
  | [] => None
  | (cs, h) :: hs' =>
      if existsb (isinstance e) cs then Some h else select_handler hs' e
  end.

(** [try: body  except ...: ...]: an exception no clause matches
    propagates; an exception raised by a handler propagates too. *)
Definition try_except {A} (body : res A) (hs : list (handler A)) : res A :=
  match body with
  | Return a => Return a
  | Raise e =>
      match select_handler hs e with
      | Some h => h e
      | None => Raise e
      end
  end.

(** [d[k]] on a dict. *)
Definition getitem (d : gmap string pyval) (k : string) : res pyval :=
  match d !! k with
  | Some v => Return v
  | None => Raise (mkExc KeyError ("'" +:+ k +:+ "'"))
  end.

(** [needle in haystack] on strings: substring test. *)
Fixpoint contains (needle haystack : string) : bool :=
  String.prefix needle haystack ||
  match haystack with
  | EmptyString => false
  | String _ rest => contains needle rest
  end.

(** [for x in xs: ys.append(f(x))], stopping at the first exception. *)
Fixpoint mapM {A B} (f : A -> res B) (xs : list A) : res (list B) :=
  match xs with
  | [] => Return []
  | x :: xs' => y ← f x; ys ← mapM f xs'; Return (y :: ys)
  end.

(** [bytes.decode('utf-8')], [json.loads] and [int] applied to a header
    value are library routines; the programs only depend on whether they
    return or raise, so they are taken as given. *)
Record Lib : Type := {
  decode_utf8 : string -> res string;
  json_loads : string -> res pyval;
  int_of_str : string -> res Z
}.

(** [type(v).__name__], for the text of an [AttributeError]. *)
Definition type_name (v : pyval) : string :=
  match v with
  | PNone => "NoneType"
  | PBool _ => "bool"
  | PInt _ => "int"
  | PStr _ => "str"
  | PList _ => "list"
  | PDict _ => "dict"
  end.

(** [data.get(k, default)]: only a dict has the method. *)
Definition py_get (data : pyval) (k : string) (default : pyval) : res pyval :=
  match data with
  | PDict d => Return (from_option id default (d !! k))
  | _ => Raise (mkExc AttributeError
                  ("'" +:+ type_name data +:+ "' object has no attribute 'get'"))
  end.

(** The call raises, when it does, a failure proper: an exception that
    derives from [Exception], as opposed to [KeyboardInterrupt] or
    [SystemExit]. *)
Definition only_failures {A} (r : res A) : Prop :=
  forall e, r = Raise e -> isinstance e Exception = true.

End Py.

Import Py.

(* ===================================================================== *)
(** ** [terminal-mcp.py]                                                  *)
(* ===================================================================== *)

Module TerminalMCP.

(** The server object: [__init__] only fills [self.tools]. *)
Record TerminalMCPServer : Type := { tools : gmap string pyval }.

Definition param (ty descr : string) : pyval :=
  PDict (mkdict [("type", PStr ty); ("description", PStr descr)]).

Definition init : TerminalMCPServer :=
  {| tools := mkdict
       [ ("execute_command", PDict (mkdict
            [ ("description", PStr "Execute a terminal command");
              ("parameters", PDict (mkdict
                 [ ("command", param "string" "Command to execute");
                   ("cwd", param "string" "Working directory") ])) ]));
         ("analyze_command", PDict (mkdict
            [ ("description",
               PStr "Analyze a command for suggestions and explanations");
              ("parameters", PDict (mkdict
                 [ ("command", param "string" "Command to analyze");
                   ("context", param "object" "Terminal context") ])) ])) ] |}.

(** *** analyze_command *)

Definition suggest_git_push : string :=
  "Consider using 'git push --force-with-lease' for safer force pushes".
Definition suggest_rm_rf : string :=
  "Warning: Destructive command detected".
Definition suggest_sudo : string :=
  "Consider if sudo is really necessary".

(** The [if]/[elif]/[elif] chain that fills [suggestions]. *)
Definition suggestions_of (command : string) : list string :=
  let suggestions := [] in
  if contains "git" command && contains "push" command then
    suggestions ++ [suggest_git_push]
  else if contains "rm" command && contains "-rf" command then
    suggestions ++ [suggest_rm_rf]
  else if contains "sudo" command then
    suggestions ++ [suggest_sudo]
  else suggestions.

Definition risk_level_of (suggestions : list string) : string :=
  if (length suggestions =? 0)%nat then "low" else "medium".

Definition analyze_command (self : TerminalMCPServer) (command : string)
    (context : gmap string pyval) : gmap string pyval :=
  let suggestions := suggestions_of command in
  mkdict [ ("command", PStr command);
           ("type", PStr "analysis");
           ("suggestions", PList (PStr <$> suggestions));
           ("risk_level", PStr (risk_level_of suggestions)) ].

(** The three tests of the chain read as a rule table, in source order. *)
Definition rules : list ((string -> bool) * string) :=
  [ (fun c => contains "git" c && contains "push" c, suggest_git_push);
    (fun c => contains "rm" c && contains "-rf" c, suggest_rm_rf);
    (fun c => contains "sudo" c, suggest_sudo) ].

(** What the specification describes: the suggestion of every rule whose
    matcher holds, in registration order. *)
Definition spec_all_matching (command : string) : list string :=
  snd <$> filter (fun r => Is_true (r.1 command)) rules.

(** *** execute_command *)

(** A launched shell process as the caller observes it: the time it takes
    to exit ([None] when it never exits by itself), its exit code and the
    text captured on its two pipes.  With [text=True] the bytes captured
    are decoded once the process has exited; [undecodable] is the message
    of the [UnicodeDecodeError] this raises when they are not valid text
    ([None] when they are, and [out_text], [err_text] are the result). *)
Record Process : Type := {
  elapsed : option Z;
  exit_code : Z;
  out_text : string;
  err_text : string;
  undecodable : option string
}.

(** The host: launching [command] through the shell in directory [cwd]
    either fails with an exception or yields a process; [os.getcwd()]. *)
Record OS : Type := {
  spawn : pyval -> pyval -> res Process;
  os_getcwd : res string
}.

Record CompletedProcess : Type := {
  returncode : Z;
  stdout : string;
  stderr : string
}.

(** The exception of an expired wait; the program never reads its text. *)
Definition timeout_expired (timeout : Z) : exc :=
  mkExc TimeoutExpired
    ("Command timed out after " +:+ pretty timeout +:+ " seconds").

(** [subprocess.run(command, shell=True, cwd=cwd, capture_output=True,
    text=True, timeout=timeout)]: the process is waited for during at most
    [timeout] time units, after which it is killed and
    [subprocess.TimeoutExpired] is raised; when it exits in time, what it
    wrote is decoded, which raises [UnicodeDecodeError] on bytes that are
    not valid text. *)
Definition subprocess_run (os : OS) (command cwd : pyval) (timeout : Z)
  : res CompletedProcess :=
  p ← spawn os command cwd;
  match elapsed p with
  | Some t =>
      if t <=? timeout then
        match undecodable p with
        | Some msg => Raise (mkExc UnicodeDecodeError msg)
        | None =>
            Return {| returncode := exit_code p;
                      stdout := out_text p;
                      stderr := err_text p |}
        end
      else Raise (timeout_expired timeout)
  | None => Raise (timeout_expired timeout)
  end.

(** [cwd or os.getcwd()]. *)
Definition working_dir (os : OS) (cwd : pyval) : res pyval :=
  if truthy cwd then Return cwd else d ← os_getcwd os; Return (PStr d).

(** The body of the coroutine [execute_command(self, command, cwd=None)].
    [self] is not used by it. *)
Definition execute_command (os : OS) (command cwd : pyval)
  : res (gmap string pyval) :=
  try_except
    (wd ← working_dir os cwd;
     result ← subprocess_run os command wd 30;
     Return (mkdict [ ("success", PBool (returncode result =? 0));
                      ("output", PStr (stdout result));
                      ("error", PStr (stderr result));
                      ("return_code", PInt (returncode result)) ]))
    [ ([TimeoutExpired], fun _ =>
         Return (mkdict [ ("success", PBool false);
                          ("error", PStr "Command timed out") ]));
      ([Exception], fun e =>
         Return (mkdict [ ("success", PBool false);
                          ("error", PStr (exc_str e)) ])) ].

(** *** The HTTP handler *)

Record Request : Type := {
  path : string;
  headers : list (string * string);
  rfile : string
}.

Record Response : Type := {
  status_code : Z;
  resp_headers : list (string * string);
  body : pyval   (* the JSON document that [json.dumps] writes to [wfile] *)
}.

Definition lower_ascii (c : ascii) : ascii :=
  let n := nat_of_ascii c in
  if ((65 <=? n) && (n <=? 90))%nat then ascii_of_nat (n + 32) else c.

Fixpoint lower (s : string) : string :=
  match s with
  | EmptyString => EmptyString
  | String c s' => String (lower_ascii c) (lower s')
  end.

(** [self.headers.get(name)]: header names compare case-insensitively and
    the first occurrence is returned. *)
Fixpoint headers_get (hs : list (string * string)) (name : string)
  : option string :=
  match hs with
  | [] => None
  | (k, v) :: hs' =>
      if String.eqb (lower k) (lower name) then Some v
      else headers_get hs' name
  end.

(** [self.rfile.read(n)] on a request whose body has been received: at
    most [n] bytes, everything for a negative [n]. *)
Definition rfile_read (data : string) (n : Z) : string :=
  if n <? 0 then data else String.substring 0 (Z.to_nat n) data.

(** [asyncio.run(coro)] refuses to start when the calling thread already
    runs an event loop: it raises [RuntimeError] and the
    coroutine body is never entered. *)
Definition asyncio_run {A} (running_loop : bool) (coro : res A) : res A :=
  if running_loop then
    Raise (mkExc RuntimeError
             "asyncio.run() cannot be called from a running event loop")
  else coro.

(** [MCPHandler.do_POST].  [None] is a handler that returns without
    writing anything (any path other than [/mcp/execute]); a raised
    exception leaves the handler before [send_response], so nothing is
    written either.  [running_loop] tells whether the thread that calls
    the handler is inside an event loop. *)
Definition do_POST (running_loop : bool) (lib : Lib) (os : OS)
    (req : Request) : res (option Response) :=
  if String.eqb (path req) "/mcp/execute" then
    content_length ← match headers_get (headers req) "Content-Length" with
                     | Some v => int_of_str lib v
                     | None => Return 0
                     end;
    let post_data := rfile_read (rfile req) content_length in
    text ← decode_utf8 lib post_data;
    data ← json_loads lib text;
    command ← py_get data "command" (PStr "");
    cwd ← py_get data "cwd" PNone;
    result ← asyncio_run running_loop (execute_command os command cwd);
    Return (Some {| status_code := 200;
                    resp_headers := [("Content-type", "application/json")];
                    body := PDict result |})
  else Return None.

(** [main] is itself a coroutine started by [asyncio.run(main())], and
    [httpd.serve_forever()] calls the handler from inside it, in the same
    thread. *)
Definition serve_request : Lib -> OS -> Request -> res (option Response) :=
  do_POST true.

(** The field sets of the two result shapes, as the functions build them. *)
Definition has_result_shape (v : pyval) : bool :=
  match v with
  | PDict d => bool_decide (is_Some (d !! "success"))
               || bool_decide (is_Some (d !! "risk_level"))
  | _ => false
  end.

(** *** Vocabulary of the statements about this file *)

(** The dicts built at the three exits of [execute_command]. *)
Definition completed_result (p : Process) : gmap string pyval :=
  mkdict [ ("success", PBool (exit_code p =? 0));
           ("output", PStr (out_text p));
           ("error", PStr (err_text p));
           ("return_code", PInt (exit_code p)) ].

Definition failed_result (msg : string) : gmap string pyval :=
  mkdict [ ("success", PBool false); ("error", PStr msg) ].


(** The launch fails: resolving the directory does, or starting the
    process in it does. *)
Definition launch_fails_with (os : OS) (command cwd : pyval) (e : exc)
  : Prop :=
  working_dir os cwd = Raise e
  \/ exists wd, working_dir os cwd = Return wd
                /\ spawn os command wd = Raise e.

(** The first four statements of the handler: the payload as parsed. *)
Definition read_payload (lib : Lib) (req : Request) : res pyval :=
  content_length ← match headers_get (headers req) "Content-Length" with
                   | Some v => int_of_str lib v
                   | None => Return 0
                   end;
  text ← decode_utf8 lib (rfile_read (rfile req) content_length);
  json_loads lib text.

(** The answer written for an executor result. *)
Definition ok_response (result : gmap string pyval) : Response :=
  {| status_code := 200;
     resp_headers := [("Content-type", "application/json")];
     body := PDict result |}.

(** A rejection in the sense of the specification: a response is
    written, and it has neither of the two result shapes. *)
Definition rejected (out : res (option Response)) : Prop :=
  exists r, out = Return (Some r) /\ has_result_shape (body r) = false.

End TerminalMCP.

(* ===================================================================== *)
(** ** [check_mcp_servers.py]                                             *)
(* ===================================================================== *)

Module CheckServers.

Definition server_entry (name : string) (port : Z) : gmap string pyval :=
  mkdict [("name", PStr name); ("port", PInt port)].

Definition MCP_SERVERS : list (gmap string pyval) :=
  [ server_entry "Memory" 13000;
    server_entry "Filesystem" 13001;
    server_entry "Terminal" 13002;
    server_entry "Kubectl" 13003;
    server_entry "Helm" 13004;
    server_entry "Minikube" 13005 ].

(** What [conn.getresponse()] hands back: status line and a body that is
    read afterwards (the read may itself fail). *)
Record HTTPResponse : Type := {
  status : Z;
  reason : string;
  read : res string
}.

(** The network: [HTTPConnection(host, port, timeout=t)],
    [conn.request('GET', url)] and [conn.getresponse()] in sequence. The
    three statements share one [try] body and the same handlers, so only
    their joint outcome matters. *)
Record Net : Type := {
  http_get : string -> pyval -> Z -> string -> res HTTPResponse
}.

(** [check_server(server)].  The [finally] clause only closes the
    connection and has no part in the value returned. *)
Definition check_server (lib : Lib) (net : Net) (server : gmap string pyval)
  : res (gmap string pyval) :=
  let host := "localhost" in
  port ← getitem server "port";
  try_except
    (response ← http_get net host port 2 "/health";
     if status response =? 200 then
       try_except
         (raw ← read response;
          text ← decode_utf8 lib raw;
          data ← json_loads lib text;
          name ← getitem server "name";
          Return (mkdict [ ("name", name);
                           ("status", PStr "running");
                           ("status_code", PInt (status response));
                           ("response", data) ]))
         [ ([JSONDecodeError; UnicodeDecodeError], fun _ =>
              name ← getitem server "name";
              Return (mkdict [ ("name", name);
                               ("status", PStr "error");
                               ("error", PStr "Invalid JSON response") ])) ]
     else
       name ← getitem server "name";
       Return (mkdict [ ("name", name);
                        ("status", PStr "error");
                        ("error", PStr ("HTTP " +:+ pretty (status response)
                                        +:+ " " +:+ reason response)) ]))
    [ ([ConnectionRefusedError], fun _ =>
         name ← getitem server "name";
         Return (mkdict [ ("name", name);
                          ("status", PStr "down");
                          ("error", PStr "Connection refused") ]));
      ([SocketTimeout], fun _ =>
         name ← getitem server "name";
         Return (mkdict [ ("name", name);
                          ("status", PStr "timeout");
                          ("error", PStr "Request timed out") ]));
      ([Exception], fun e =>
         name ← getitem server "name";
         Return (mkdict [ ("name", name);
                          ("status", PStr "error");
                          ("error", PStr (exc_str e)) ])) ].

(** [results = list(executor.map(check_server, MCP_SERVERS))] in [main]:
    the reports in the order of [MCP_SERVERS]; the first check that
    raised, in that order, is re-raised while the list is built. *)
Definition check_all (lib : Lib) (net : Net)
    (servers : list (gmap string pyval)) : res (list (gmap string pyval)) :=
  mapM (check_server lib net) servers.

Definition main (lib : Lib) (net : Net) : res (list (gmap string pyval)) :=
  check_all lib net MCP_SERVERS.

(** *** Vocabulary of the statements about this file *)

(** Reading and parsing the body of a 200 response. *)
Definition body_json (lib : Lib) (response : HTTPResponse) : res pyval :=
  raw ← read response; text ← decode_utf8 lib raw; json_loads lib text.

(** The report of a server that is not running. *)
Definition failure_report (name : pyval) (status error : string)
  : gmap string pyval :=
  mkdict [ ("name", name); ("status", PStr status); ("error", PStr error) ].

(** The request that [check_server] sends to [port]. *)
Definition probe (net : Net) (port : pyval) : res HTTPResponse :=
  http_get net "localhost" port 2 "/health".

(** A field of a report, when there is a report. *)
Definition field (r : res (gmap string pyval)) (k : string) : option pyval :=
  match r with
  | Return d => d !! k
  | Raise _ => None
  end.

(** The probe of [port] fails, when it does, with a failure proper. *)
Definition probe_fails_properly (lib : Lib) (net : Net) (port : pyval)
  : Prop :=
  only_failures (probe net port)
  /\ forall response,
       probe net port = Return response ->
       only_failures (body_json lib response).

(** A server entry that [check_server] can read and whose probe fails,
    when it does, with a failure proper. *)
Definition checkable (lib : Lib) (net : Net) (server : gmap string pyval)
  : Prop :=
  exists name port,
    server !! "name" = Some name /\ server !! "port" = Some port
    /\ probe_fails_properly lib net port.

End CheckServers.

(* ===================================================================== *)
(** ** Concrete hosts, used to run the programs on examples               *)
(* ===================================================================== *)

Module Samples.

Import TerminalMCP CheckServers.

Definition quick (code : Z) (out err : string) : Process :=
  {| elapsed := Some 1; exit_code := code; out_text := out; err_text := err;
     undecodable := None |}.

(** What [printf '\200'] does: it exits at once with code 0, having
    written the single byte 0x80, which is not valid UTF-8. *)
Definition wrote_byte_0x80 : Process :=
  {| elapsed := Some 1; exit_code := 0; out_text := ""; err_text := "";
     undecodable :=
       Some "'utf-8' codec can't decode byte 0x80 in position 0: invalid start byte" |}.

(** A host with a shell that knows a handful of commands, and on which
    the directory [/nonexistent] does not exist. *)
Definition sample_os : OS :=
  {| spawn := fun command cwd =>
       match command, cwd with
       | PStr c, PStr d =>
           if String.eqb d "/nonexistent" then
             Raise (mkExc OSError
                      "[Errno 2] No such file or directory: '/nonexistent'")
           else if String.eqb c "" then Return (quick 0 "" "")
           else if String.eqb c "echo hello" then Return (quick 0 "hello" "")
           else if String.eqb c "false" then Return (quick 1 "" "")
           else if String.eqb c "sleep 60" then
             Return {| elapsed := Some 60; exit_code := 0;
                       out_text := ""; err_text := "";
                       undecodable := None |}
           else if String.eqb c "yes" then
             Return {| elapsed := None; exit_code := 0;
                       out_text := ""; err_text := "";
                       undecodable := None |}
           else if String.eqb c "printf '\200'" then Return wrote_byte_0x80
           else Return (quick 127 "" "/bin/sh: 1: not found")
       | _, _ =>
           Raise (mkExc TypeError "expected str, bytes or os.PathLike object")
       end;
     os_getcwd := Return "/srv/wave" |}.


Definition is_digit (c : ascii) : bool :=
  ((48 <=? nat_of_ascii c) && (nat_of_ascii c <=? 57))%nat.

Fixpoint digits_value (acc : Z) (s : string) : option Z :=
  match s with
  | EmptyString => Some acc
  | String c s' =>
      if is_digit c
      then digits_value (10 * acc + Z.of_nat (nat_of_ascii c - 48)) s'
      else None
  end.

Fixpoint all_ascii (s : string) : bool :=
  match s with
  | EmptyString => true
  | String c s' => (nat_of_ascii c <? 128)%nat && all_ascii s'
  end.

(** Library routines on the texts the examples use: plain decimal
    numerals, ASCII text, and the JSON documents [{}], [[]] and [null];
    any other text is rejected as the routine rejects ill-formed input. *)
Definition sample_lib : Lib :=
  {| decode_utf8 := fun raw =>
       if all_ascii raw then Return raw
       else Raise (mkExc UnicodeDecodeError
                     "'utf-8' codec can't decode byte: invalid start byte");
     json_loads := fun text =>
       if String.eqb text "{}" then Return (PDict ∅)
       else if String.eqb text "[]" then Return (PList [])
       else if String.eqb text "null" then Return PNone
       else Raise (mkExc JSONDecodeError
                     "Expecting value: line 1 column 1 (char 0)");
     int_of_str := fun v =>
       match v with
       | EmptyString =>
           Raise (mkExc ValueError "invalid literal for int() with base 10")
       | _ =>
           match digits_value 0 v with
           | Some n => Return n
           | None =>
               Raise (mkExc ValueError
                        "invalid literal for int() with base 10")
           end
       end |}.

Definition refused : exc :=
  mkExc ConnectionRefusedError "[Errno 111] Connection refused".
Definition timed_out : exc := mkExc SocketTimeout "timed out".

(** A network on which the six servers show the different outcomes. *)
Definition sample_net : Net :=
  {| http_get := fun host port timeout url =>
       match port with
       | PInt 13000 =>
           Return {| status := 200; reason := "OK"; read := Return "{}" |}
       | PInt 13001 => Raise refused
       | PInt 13002 => Raise timed_out
       | PInt 13003 =>
           Return {| status := 503; reason := "Service Unavailable";
                     read := Return "" |}
       | PInt 13004 =>
           Return {| status := 200; reason := "OK";
                     read := Return "<html>" |}
       | PInt 13005 =>
           Return {| status := 200; reason := "OK";
                     read := Raise timed_out |}
       | _ => Raise (mkExc OSError "[Errno 101] Network is unreachable")
       end |}.

(** Requests to the execute endpoint: an object without [command], a JSON
    array, and a body that is not JSON. *)
Definition post (payload : string) : Request :=
  {| path := "/mcp/execute";
     headers := [("Content-Length", pretty (Z.of_nat (String.length payload)))];
     rfile := payload |}.

Definition req_empty_object : Request := post "{}".
Definition req_array : Request := post "[]".
Definition req_garbage : Request := post "not json".

End Samples.

(* ===================================================================== *)
(** ** [analyze_command], statement by statement on a store               *)
(* ===================================================================== *)

Module Store.

Import TerminalMCP.

(** Python objects as the interpreter holds them: immutable values are
    carried around as they are, a list or a dict lives in the store and
    is known by its address, so that two names for one object see each
    other's changes. *)
Inductive val : Type :=
| VNone
| VBool (b : bool)
| VInt (z : Z)
| VStr (s : string)
| VRef (l : nat).

Inductive obj : Type :=
| OList (items : list val)
| ODict (entries : gmap string val).

(** A computation that reads and changes the store, or raises. *)
Definition Prog (A : Type) : Type :=
  gmap nat obj -> res (A * gmap nat obj).

Definition ret_prog {A} (a : A) : Prog A := fun h => Return (a, h).

Definition bind_prog {A B} (m : Prog A) (k : A -> Prog B) : Prog B :=
  fun h => match m h with
           | Return (a, h') => k a h'
           | Raise e => Raise e
           end.

(** A new object, at an address nothing is held at. *)
Definition alloc (o : obj) : Prog val :=
  fun h => let l := fresh (dom h) in Return (VRef l, <[l := o]> h).

(** [target.append(item)]: changes the list in place. *)
Definition list_append (target item : val) : Prog unit :=
  fun h =>
    match target with
    | VRef l =>
        match h !! l with
        | Some (OList items) =>
            Return (tt, <[l := OList (items ++ [item])]> h)
        | _ => Raise (mkExc AttributeError
                        "object has no attribute 'append'")
        end
    | _ => Raise (mkExc AttributeError "object has no attribute 'append'")
    end.

(** [len(target)]. *)
Definition len (target : val) : Prog nat :=
  fun h =>
    match target with
    | VRef l =>
        match h !! l with
        | Some (OList items) => Return (length items, h)
        | Some (ODict entries) => Return (size entries, h)
        | None => Raise (mkExc TypeError "object has no len()")
        end
    | VStr s => Return (String.length s, h)
    | _ => Raise (mkExc TypeError "object has no len()")
    end.

(** A dict display whose values are references or immutable values. *)
Definition mkdict_val (kvs : list (string * val)) : gmap string val :=
  foldl (fun m kv => <[kv.1 := kv.2]> m) ∅ kvs.

(** The body of [analyze_command], one statement after the other.
    [self] and [context] are the server object and the context dict as
    the caller passes them; [command] is a [str], which is immutable. *)
Definition analyze_command_run (self : val) (command : string)
    (context : val) : Prog val :=
  bind_prog (alloc (OList [])) (fun suggestions =>
  bind_prog
    (if contains "git" command && contains "push" command then
       list_append suggestions (VStr suggest_git_push)
     else if contains "rm" command && contains "-rf" command then
       list_append suggestions (VStr suggest_rm_rf)
     else if contains "sudo" command then
       list_append suggestions (VStr suggest_sudo)
     else ret_prog tt) (fun _ =>
  bind_prog (len suggestions) (fun n =>
  alloc (ODict (mkdict_val
    [ ("command", VStr command);
      ("type", VStr "analysis");
      ("suggestions", suggestions);
      ("risk_level", VStr (if (n =? 0)%nat then "low" else "medium")) ]))))).

(** NOT the program: a variant that appends to a list kept by the server
    object, where the program starts from a new empty list.  It is here
    only to show, in [shared_list_variant_differs], that the store tells
    such a program apart. *)
Definition variant_with_shared_list (self : val) (command : string)
    (context : val) : Prog val :=
  let suggestions := self in
  bind_prog
    (if contains "sudo" command then
       list_append suggestions (VStr suggest_sudo)
     else ret_prog tt) (fun _ =>
  bind_prog (len suggestions) (fun n =>
  alloc (ODict (mkdict_val
    [ ("command", VStr command);
      ("type", VStr "analysis");
      ("suggestions", suggestions);
      ("risk_level", VStr (if (n =? 0)%nat then "low" else "medium")) ])))).

(** What a caller sees of a value: the object graph below it, read out of
    the store down to [depth] references. *)
Fixpoint view (depth : nat) (h : gmap nat obj) (v : val) : pyval :=
  match v with
  | VNone => PNone
  | VBool b => PBool b
  | VInt z => PInt z
  | VStr s => PStr s
  | VRef l =>
      match depth with
      | O => PNone
      | S depth' =>
          match h !! l with
          | Some (OList items) => PList (map (view depth' h) items)
          | Some (ODict entries) => PDict (view depth' h <$> entries)
          | None => PNone
          end
      end
  end.

(** The store [h'] still holds every object of [h], unchanged. *)
Definition preserves (h h' : gmap nat obj) : Prop :=
  forall l, is_Some (h !! l) -> h' !! l = h !! l.

(** The object at [r] is the result dict for [command], its
    [suggestions] entry being the list at [s]. *)
Definition result_at (h : gmap nat obj) (r s : nat) (command : string)
  : Prop :=
  h !! r = Some (ODict (mkdict_val
             [ ("command", VStr command);
               ("type", VStr "analysis");
               ("suggestions", VRef s);
               ("risk_level", VStr (risk_level_of (suggestions_of command))) ]))
  /\ h !! s = Some (OList (VStr <$> suggestions_of command)).

(** A store with a server object, a context and a list someone else
    holds. *)
Definition sample_store : gmap nat obj :=
  <[2%nat := OList [VStr "kept"]]>
    (<[1%nat := ODict (mkdict_val [("cwd", VStr "/tmp")])]>
       (<[0%nat := ODict ∅]> ∅)).

End Store.

(* ===================================================================== *)
(** ** Notions used by the further properties                             *)
(* ===================================================================== *)

Module Notions.

Import TerminalMCP CheckServers.

(** [needle] occurs in [s]: the meaning of Python's [needle in s]. *)
Definition occurs (needle s : string) : Prop :=
  exists pre post, s = pre +:+ needle +:+ post.

(** The request [req] with [data] as the bytes that follow its headers. *)
Definition with_body (req : Request) (data : string) : Request :=
  {| path := path req; headers := headers req; rfile := data |}.

(** The report of a server that answers 200 with the JSON value [data]. *)
Definition running_report (name data : pyval) : gmap string pyval :=
  mkdict [ ("name", name);
           ("status", PStr "running");
           ("status_code", PInt 200);
           ("response", data) ].

(** A result that [print_results] counts as running. *)
Definition is_running (result : gmap string pyval) : Prop :=
  result !! "status" = Some (PStr "running").

End Notions.

(* ===================================================================== *)
(** ** [check_mcp_servers.py]: printing the reports                       *)
(* ===================================================================== *)

Module Report.

Import CheckServers.

(** [str.upper] and the [repr] of lists and dicts are library routines,
    taken as given, and so is the standard output: writing a text to it
    returns, or raises (a [UnicodeEncodeError] when its encoding cannot
    express the text, an [OSError] when it is closed). *)
Record Fmt : Type := {
  str_upper : string -> string;
  py_repr : pyval -> string;
  stdout_write : string -> res unit
}.

(** A string literal given by its bytes. *)
Definition bytes (l : list nat) : string :=
  fold_right (fun n s => String (ascii_of_nat n) s) EmptyString l.

Definition nl : string := bytes [10]%nat.

(** The non-ASCII literals of the file, byte for byte (lines 81 and 115,
    88, 91, 104 and 106). *)
Definition icon_search : string := bytes [196; 159; 197; 184; 226; 128; 157]%nat.
Definition icon_ok : string := bytes [195; 162; 197; 147; 226; 128; 166]%nat.
Definition icon_fail : string := bytes [195; 162; 197; 146]%nat.
Definition icon_warn : string :=
  bytes [195; 162; 197; 161; 194; 160; 195; 175; 194; 184]%nat.
Definition icon_idea : string :=
  bytes [196; 159; 197; 184; 226; 128; 153; 194; 161]%nat.

(** [s * n]. *)
Fixpoint str_repeat (s : string) (n : nat) : string :=
  match n with
  | O => EmptyString
  | S n' => s +:+ str_repeat s n'
  end.

(** [len(s)]: the code points of [s], that is the bytes of its UTF-8
    encoding that are not continuation bytes. *)
Definition is_continuation (c : ascii) : bool :=
  ((128 <=? nat_of_ascii c) && (nat_of_ascii c <? 192))%nat.

Fixpoint py_len (s : string) : nat :=
  match s with
  | EmptyString => O
  | String c s' => ((if is_continuation c then 0 else 1) + py_len s')%nat
  end.

(** [s.ljust(width)]. *)
Definition ljust (s : string) (width : nat) : string :=
  s +:+ str_repeat " " (width - py_len s).

(** [str(v)], as an f-string field formats [v]. *)
Definition py_str (fmt : Fmt) (v : pyval) : string :=
  match v with
  | PNone => "None"
  | PBool true => "True"
  | PBool false => "False"
  | PInt z => pretty z
  | PStr s => s
  | _ => py_repr fmt v
  end.

(** [v == s] for a string literal [s]. *)
Definition eq_str (v : pyval) (s : string) : bool :=
  match v with
  | PStr t => String.eqb t s
  | _ => false
  end.

(** [v.ljust(width)] and [v.upper()]: only a [str] has the methods. *)
Definition call_ljust (v : pyval) (width : nat) : res string :=
  match v with
  | PStr s => Return (ljust s width)
  | _ => Raise (mkExc AttributeError
                  ("'" +:+ type_name v +:+ "' object has no attribute 'ljust'"))
  end.

Definition call_upper (fmt : Fmt) (v : pyval) : res string :=
  match v with
  | PStr s => Return (str_upper fmt s)
  | _ => Raise (mkExc AttributeError
                  ("'" +:+ type_name v +:+ "' object has no attribute 'upper'"))
  end.

(** One turn of the [for result in results] loop: the line it prints. *)
Definition result_line (fmt : Fmt) (result : gmap string pyval)
  : res string :=
  status ← getitem result "status";
  let '(status_icon, details) :=
    if eq_str status "running" then
      (icon_ok,
       "(HTTP " +:+ py_str fmt (from_option id (PStr "?")
                                  (result !! "status_code")) +:+ ")")
    else
      (icon_fail,
       "- " +:+ py_str fmt (from_option id (PStr "Unknown error")
                              (result !! "error"))) in
  name ← getitem result "name";
  padded ← call_ljust name 10;
  shout ← call_upper fmt status;
  Return (status_icon +:+ " " +:+ padded +:+ ": " +:+ shout
          +:+ " " +:+ details).

(** A run that prints: the texts of the [print] calls that were carried
    out, in order, and how the run ended.  A text is written followed by
    a line break; the texts that begin with [nl] thus give two lines of
    output. *)
Definition printed (A : Type) : Type := (list string * res A)%type.

(** [print(text)]. *)
Definition emit (fmt : Fmt) (text : string) : printed unit :=
  match stdout_write fmt text with
  | Return _ => ([text], Return tt)
  | Raise e => ([], Raise e)
  end.

(** A step that prints nothing. *)
Definition quiet {A} (r : res A) : printed A := ([], r).

(** One statement after the other: what the first printed stays printed
    when it raises. *)
Definition then_print {A B} (m : printed A) (k : A -> printed B)
  : printed B :=
  match m with
  | (texts, Return a) =>
      match k a with
      | (more, outcome) => ((texts ++ more)%list, outcome)
      end
  | (texts, Raise e) => (texts, Raise e)
  end.

(** The loop: one [print] per result, up to the first turn that raises. *)
Fixpoint print_each (fmt : Fmt) (results : list (gmap string pyval))
  : printed unit :=
  match results with
  | [] => quiet (Return tt)
  | result :: rest =>
      then_print (quiet (result_line fmt result)) (fun line =>
      then_print (emit fmt line) (fun _ =>
      print_each fmt rest))
  end.

(** [sum(1 for r in results if r['status'] == 'running')]. *)
Fixpoint count_running (results : list (gmap string pyval)) : res nat :=
  match results with
  | [] => Return O
  | r :: rest =>
      status ← getitem r "status";
      n ← count_running rest;
      Return ((if eq_str status "running" then 1 else 0) + n)%nat
  end.

Definition rule_line : string := str_repeat "=" 50.

(** What is printed once [running] and [total] are known. *)
Definition summary (running total : nat) : list string :=
  ([ if (running =? total)%nat then
       icon_ok +:+ " All " +:+ pretty running +:+ " MCP servers are running!"
     else
       icon_warn +:+ "  " +:+ pretty running +:+ " of " +:+ pretty total
       +:+ " MCP servers are running" ]
   ++ [ nl +:+ icon_idea +:+ " Next Steps:" ]
   ++ (if (running <? total)%nat then
         [ "1. Start the MCP servers with: npm run mcp:start";
           "2. For development with auto-reload: npm run mcp:dev" ]
       else [])
   ++ [ "3. Run integration tests: npm test";
        "4. Start development server: npm run dev" ])%list.

(** [print_results(results)]. *)
Definition print_results (fmt : Fmt) (results : list (gmap string pyval))
  : printed unit :=
  then_print (emit fmt (nl +:+ icon_search +:+ " MCP Server Status")) (fun _ =>
  then_print (emit fmt rule_line) (fun _ =>
  then_print (print_each fmt results) (fun _ =>
  then_print (emit fmt (nl +:+ rule_line)) (fun _ =>
  then_print (quiet (count_running results)) (fun running =>
  let total := length results in
  then_print
    (if (running =? total)%nat then
       emit fmt (icon_ok +:+ " All " +:+ pretty running
                 +:+ " MCP servers are running!")
     else
       emit fmt (icon_warn +:+ "  " +:+ pretty running +:+ " of "
                 +:+ pretty total +:+ " MCP servers are running")) (fun _ =>
  then_print (emit fmt (nl +:+ icon_idea +:+ " Next Steps:")) (fun _ =>
  then_print
    (if (running <? total)%nat then
       then_print
         (emit fmt "1. Start the MCP servers with: npm run mcp:start")
         (fun _ =>
          emit fmt "2. For development with auto-reload: npm run mcp:dev")
     else quiet (Return tt)) (fun _ =>
  then_print (emit fmt "3. Run integration tests: npm test") (fun _ =>
  emit fmt "4. Start development server: npm run dev"))))))))).

(** [main()], printing included. *)
Definition run_main (lib : Lib) (net : Net) (fmt : Fmt) : printed unit :=
  then_print (emit fmt (icon_search +:+ " Checking MCP servers...")) (fun _ =>
  then_print (quiet (main lib net)) (fun results =>
  print_results fmt results)).

(** ASCII upper-casing, which is what [str.upper] does on ASCII text. *)
Definition upper_ascii (c : ascii) : ascii :=
  let n := nat_of_ascii c in
  if ((97 <=? n) && (n <=? 122))%nat then ascii_of_nat (n - 32) else c.

Fixpoint upper (s : string) : string :=
  match s with
  | EmptyString => EmptyString
  | String c s' => String (upper_ascii c) (upper s')
  end.

(** A terminal that takes every text. *)
Definition sample_fmt : Fmt :=
  {| str_upper := upper; py_repr := fun _ => "...";
     stdout_write := fun _ => Return tt |}.

(** A standard output whose encoding is ASCII. *)
Definition ascii_fmt : Fmt :=
  {| str_upper := upper; py_repr := fun _ => "...";
     stdout_write := fun text =>
       if forallb (fun c => (nat_of_ascii c <? 128)%nat)
            (list_ascii_of_string text)
       then Return tt
       else Raise (mkExc UnicodeEncodeError
                     "'ascii' codec can't encode characters") |}.

End Report.

(* ===================================================================== *)
(** ** Properties                                                         *)
(* ===================================================================== *)

Import TerminalMCP CheckServers Samples.

(** *** The analyzer *)

Section Analyzer.

Variable self : TerminalMCPServer.
Variable command : string.
Variable context : gmap string pyval.

Lemma analyze_command_echo :
  analyze_command self command context !! "command" = Some (PStr command).
Proof. reflexivity. Qed.

Lemma analyze_command_suggestions :
  analyze_command self command context !! "suggestions"
  = Some (PList (PStr <$> suggestions_of command)).
Proof. reflexivity. Qed.

Lemma analyze_command_risk_level :
  analyze_command self command context !! "risk_level"
  = Some (PStr (risk_level_of (suggestions_of command))).
Proof. reflexivity. Qed.

(** The chain keeps the first rule that matches and drops the others. *)
Lemma suggestions_of_first_match :
  suggestions_of command = take 1 (spec_all_matching command).
Proof.
  unfold suggestions_of, spec_all_matching, rules.
  rewrite !filter_cons, filter_nil. cbn [fst snd].
  destruct (contains "git" command && contains "push" command);
    destruct (contains "rm" command && contains "-rf" command);
    destruct (contains "sudo" command); reflexivity.
Qed.

Lemma suggestions_of_length : (length (suggestions_of command) <= 1)%nat.
Proof.
  rewrite suggestions_of_first_match, length_take. lia.
Qed.

End Analyzer.

(** C1 (as amended): for every command, [analyze_command] returns the
    suggestion of the first rule that matches, in registration order
    (git push, then rm -rf, then sudo), and of no other rule: its
    [suggestions] are the first element, when there is one, of the
    sequence of all matching rules' suggestions. *)
Theorem analyze_command_first_match_wins
    (self : TerminalMCPServer) (command : string)
    (context : gmap string pyval) :
  analyze_command self command context !! "suggestions"
  = Some (PList (PStr <$> take 1 (spec_all_matching command))).
Proof.
  rewrite analyze_command_suggestions.
  by rewrite suggestions_of_first_match.
Qed.

(** C1 fails as stated: ["sudo git push"] matches the git-push rule and
    the sudo rule, and ["git push; rm -rf build"] the git-push rule and
    the rm -rf rule, yet in both cases the result does not hold the
    suggestions of all matching rules. *)
Lemma analyze_command_not_all_matching :
  (spec_all_matching "sudo git push" = [suggest_git_push; suggest_sudo]
   /\ analyze_command init "sudo git push" ∅ !! "suggestions"
      <> Some (PList (PStr <$> spec_all_matching "sudo git push")))
  /\
  (spec_all_matching "git push; rm -rf build"
     = [suggest_git_push; suggest_rm_rf]
   /\ analyze_command init "git push; rm -rf build" ∅ !! "suggestions"
      <> Some (PList (PStr <$> spec_all_matching "git push; rm -rf build"))).
Proof.
  split; (split; [reflexivity |]);
    rewrite analyze_command_suggestions; vm_compute; discriminate.
Qed.

(** C3: [risk_level] is ["low"] exactly when [suggestions] is empty. *)
Theorem analyze_command_low_iff_no_suggestions
    (self : TerminalMCPServer) (command : string)
    (context : gmap string pyval) :
  analyze_command self command context !! "risk_level" = Some (PStr "low")
  <-> analyze_command self command context !! "suggestions" = Some (PList []).
Proof.
  rewrite analyze_command_risk_level, analyze_command_suggestions.
  unfold risk_level_of.
  destruct (suggestions_of command) as [|s l]; cbn; split; intros H;
    first [reflexivity | discriminate H].
Qed.

(** What is read out of a result dict in the store is the dict of
    [analyze_command]. *)
Lemma view_result (h : gmap nat Store.obj) (r s : nat) (command : string)
    (self : TerminalMCPServer) (context : gmap string pyval) :
  Store.result_at h r s command ->
  Store.view 2 h (Store.VRef r)
  = PDict (analyze_command self command context).
Proof.
  intros [Hr Hs].
  cbn [Store.view]. rewrite Hr. unfold Store.mkdict_val.
  cbn [foldl fst snd].
  rewrite !fmap_insert, fmap_empty. cbn [Store.view]. rewrite Hs.
  rewrite <- list_fmap_compose. reflexivity.
Qed.

(** The [if]/[elif] chain on the store: it changes the fresh list and
    nothing else. *)
Lemma append_chain (h : gmap nat Store.obj) (s : nat) (command : string) :
  (if contains "git" command && contains "push" command then
     Store.list_append (Store.VRef s) (Store.VStr suggest_git_push)
   else if contains "rm" command && contains "-rf" command then
     Store.list_append (Store.VRef s) (Store.VStr suggest_rm_rf)
   else if contains "sudo" command then
     Store.list_append (Store.VRef s) (Store.VStr suggest_sudo)
   else Store.ret_prog tt) (<[s := Store.OList []]> h)
  = Return (tt, <[s := Store.OList (Store.VStr <$> suggestions_of command)]> h).
Proof.
  unfold suggestions_of, Store.list_append, Store.ret_prog.
  destruct (contains "git" command && contains "push" command);
    [| destruct (contains "rm" command && contains "-rf" command);
       [| destruct (contains "sudo" command)]];
    rewrite ?lookup_insert_eq, ?insert_insert_eq; reflexivity.
Qed.

(** One call: it returns the address of a new dict that holds the
    result, built on a new list, and leaves every object that was in the
    store as it was. *)
Lemma analyze_command_run_spec (h : gmap nat Store.obj)
    (self context : Store.val) (command : string) :
  exists r s h',
    Store.analyze_command_run self command context h
    = Return (Store.VRef r, h')
    /\ h !! s = None /\ h !! r = None
    /\ Store.result_at h' r s command
    /\ Store.preserves h h'.
Proof.
  set (s := fresh (dom h)).
  assert (Hs : h !! s = None) by (apply not_elem_of_dom, is_fresh).
  set (items := Store.VStr <$> suggestions_of command).
  set (hs := <[s := Store.OList items]> h).
  set (r := fresh (dom hs)).
  assert (Hr : hs !! r = None) by (apply not_elem_of_dom, is_fresh).
  assert (Hrs : r <> s).
  { intros Heq. rewrite Heq in Hr. unfold hs in Hr.
    by rewrite lookup_insert_eq in Hr. }
  assert (Hrh : h !! r = None).
  { unfold hs in Hr. by rewrite lookup_insert_ne in Hr. }
  exists r, s.
  eexists. split; [| split; [exact Hs | split; [exact Hrh |]]].
  - unfold Store.analyze_command_run, Store.bind_prog, Store.alloc.
    fold s. rewrite append_chain. fold items. fold hs.
    unfold Store.len. unfold hs at 1. rewrite lookup_insert_eq.
    fold hs. fold r. unfold items at 1. rewrite length_fmap.
    reflexivity.
  - split; [split |].
    + by rewrite lookup_insert_eq.
    + rewrite lookup_insert_ne by done. unfold hs.
      by rewrite lookup_insert_eq.
    + intros l [o Ho].
      rewrite lookup_insert_ne by (intros ->; congruence).
      unfold hs. rewrite lookup_insert_ne by (intros ->; congruence).
      reflexivity.
Qed.

(** C7: [analyze_command] is deterministic and free of side effects.
    Run statement by statement on a store of objects, from any store
    and for any server object and context, two calls one after the
    other with the same command (the second in the store the first has
    left) both return, and return results that read the same: the same
    echoed command, the same suggestions and the same risk level, which
    are those of the function [analyze_command].  Neither call changes
    an object that was in the store before it, the server object and
    the context included, and the second call leaves the result of the
    first as it was. *)
Theorem analyze_command_deterministic
    (h : gmap nat Store.obj) (self1 self2 context : Store.val)
    (command : string) :
  exists r1 h1 r2 h2,
    Store.analyze_command_run self1 command context h = Return (r1, h1)
    /\ Store.analyze_command_run self2 command context h1 = Return (r2, h2)
    /\ Store.view 2 h2 r2 = Store.view 2 h1 r1
    /\ (forall (self : TerminalMCPServer) (ctx : gmap string pyval),
          Store.view 2 h1 r1 = PDict (analyze_command self command ctx))
    /\ Store.view 2 h2 r1 = Store.view 2 h1 r1
    /\ r1 <> r2
    /\ Store.preserves h h1
    /\ Store.preserves h1 h2.
Proof.
  destruct (analyze_command_run_spec h self1 context command)
    as (r1 & s1 & h1 & Hrun1 & _ & _ & Hres1 & Hkeep1).
  destruct (analyze_command_run_spec h1 self2 context command)
    as (r2 & s2 & h2 & Hrun2 & _ & Hfresh2 & Hres2 & Hkeep2).
  assert (Hres12 : Store.result_at h2 r1 s1 command).
  { destruct Hres1 as [Hr Hs]. split.
    - rewrite (Hkeep2 r1) by (by rewrite Hr). exact Hr.
    - rewrite (Hkeep2 s1) by (by rewrite Hs). exact Hs. }
  exists (Store.VRef r1), h1, (Store.VRef r2), h2.
  split; [exact Hrun1 |]. split; [exact Hrun2 |].
  split; [by rewrite (view_result h2 r2 s2 command init ∅ Hres2),
                     (view_result h1 r1 s1 command init ∅ Hres1) |].
  split; [intros self ctx; by apply (view_result h1 r1 s1) |].
  split; [by rewrite (view_result h2 r1 s1 command init ∅ Hres12),
                     (view_result h1 r1 s1 command init ∅ Hres1) |].
  split; [| by split].
  intros [= ->]. destruct Hres1 as [Hr _]. congruence.
Qed.

(** On the sample store: the two results read the same, and the list
    held at address 2 is still what it was. *)
Example analyze_command_run_twice :
  match Store.analyze_command_run (Store.VRef 0%nat) "sudo ls"
          (Store.VRef 1%nat) Store.sample_store with
  | Return (r1, h1) =>
      match Store.analyze_command_run (Store.VRef 0%nat) "sudo ls"
              (Store.VRef 1%nat) h1 with
      | Return (r2, h2) =>
          Store.view 2 h1 r1 = Store.view 2 h2 r2
          /\ Store.view 2 h2 r1
             = PDict (analyze_command init "sudo ls" ∅)
          /\ h2 !! 2%nat = Some (Store.OList [Store.VStr "kept"])
      | Raise _ => False
      end
  | Raise _ => False
  end.
Proof. vm_compute. repeat split. Qed.

(** C9: the [suggestions] of a result hold at most one element. *)
Theorem analyze_command_at_most_one_suggestion
    (self : TerminalMCPServer) (command : string)
    (context : gmap string pyval) :
  exists l : list pyval,
    analyze_command self command context !! "suggestions" = Some (PList l)
    /\ (length l <= 1)%nat.
Proof.
  exists (PStr <$> suggestions_of command). split.
  - apply analyze_command_suggestions.
  - rewrite length_fmap. apply suggestions_of_length.
Qed.

(** C10: [risk_level] is ["low"] or ["medium"] and never ["high"], also
    for a command that matches the rm -rf rule. *)
Theorem analyze_command_risk_low_or_medium
    (self : TerminalMCPServer) (command : string)
    (context : gmap string pyval) :
  (analyze_command self command context !! "risk_level" = Some (PStr "low")
   \/ analyze_command self command context !! "risk_level"
      = Some (PStr "medium"))
  /\ analyze_command self command context !! "risk_level"
     <> Some (PStr "high").
Proof.
  rewrite analyze_command_risk_level. unfold risk_level_of.
  destruct (length (suggestions_of command) =? 0)%nat;
    (split; [auto | discriminate]).
Qed.

Example analyze_rm_rf_is_medium :
  analyze_command init "rm -rf /tmp/foo" ∅ !! "suggestions"
    = Some (PList [PStr suggest_rm_rf])
  /\ analyze_command init "rm -rf /tmp/foo" ∅ !! "risk_level"
    = Some (PStr "medium").
Proof. split; reflexivity. Qed.

(** *** The executor *)

Section Executor.

Variable os : OS.
Variables command cwd : pyval.


(** Which handler an exception raised inside the [try] reaches. *)
Lemma execute_command_handles (e : exc) :
  isinstance e Exception = true ->
  try_except (A := gmap string pyval) (Raise e)
    [ ([TimeoutExpired], fun _ => Return (failed_result "Command timed out"));
      ([Exception], fun e => Return (failed_result (exc_str e))) ]
  = Return (failed_result (if isinstance e TimeoutExpired
                           then "Command timed out" else exc_str e)).
Proof.
  intros He. unfold try_except. cbn [select_handler existsb].
  destruct (isinstance e TimeoutExpired); cbn [orb].
  - reflexivity.
  - rewrite He. reflexivity.
Qed.




Lemma execute_command_launch_failure (e : exc) :
  launch_fails_with os command cwd e ->
  isinstance e Exception = true ->
  execute_command os command cwd
  = Return (failed_result (if isinstance e TimeoutExpired
                           then "Command timed out" else exc_str e)).
Proof.
  intros Hl He. unfold execute_command, subprocess_run.
  destruct Hl as [Hwd | (wd & Hwd & Hsp)].
  - rewrite Hwd. cbn [mbind res_bind].
    apply (execute_command_handles e He).
  - rewrite Hwd. cbn [mbind res_bind]. rewrite Hsp. cbn [mbind res_bind].
    apply (execute_command_handles e He).
Qed.

End Executor.






(** The two [except] clauses of [execute_command] on a raised exception:
    a failure result, or the same exception again when it does not
    derive from [Exception]. *)
Lemma execute_command_except (e : exc) :
  try_except (A := gmap string pyval) (Raise e)
    [ ([TimeoutExpired], fun _ =>
         Return (mkdict [ ("success", PBool false);
                          ("error", PStr "Command timed out") ]));
      ([Exception], fun e =>
         Return (mkdict [ ("success", PBool false);
                          ("error", PStr (exc_str e)) ])) ]
  = if isinstance e TimeoutExpired
    then Return (failed_result "Command timed out")
    else if isinstance e Exception
         then Return (failed_result (exc_str e))
         else Raise e.
Proof.
  unfold try_except. cbn [select_handler existsb].
  destruct (isinstance e TimeoutExpired); cbn [orb]; [reflexivity |].
  by destruct (isinstance e Exception).
Qed.





(** *** The dispatcher *)

Section Dispatcher.

Variable lib : Lib.
Variable req : Request.
Hypothesis Hpath : path req = "/mcp/execute".

(** The handler is the parse of the payload followed by the call. *)
Lemma do_POST_after_payload (running_loop : bool) (os : OS) :
  do_POST running_loop lib os req
  = data ← read_payload lib req;
    command ← py_get data "command" (PStr "");
    cwd ← py_get data "cwd" PNone;
    result ← asyncio_run running_loop (execute_command os command cwd);
    Return (Some (ok_response result)).
Proof.
  unfold do_POST, read_payload. rewrite Hpath. cbn [String.eqb].
  change ("/mcp/execute" =? "/mcp/execute")%string with true. cbn iota.
  destruct (match headers_get (headers req) "Content-Length" with
            | Some v => int_of_str lib v
            | None => Return 0
            end) as [n|e]; [| reflexivity].
  cbn [mbind res_bind].
  destruct (decode_utf8 lib (rfile_read (rfile req) n)) as [text|e];
    reflexivity.
Qed.

Lemma do_POST_bad_payload (running_loop : bool) (os : OS) (e : exc) :
  read_payload lib req = Raise e ->
  do_POST running_loop lib os req = Raise e.
Proof. intros H. rewrite do_POST_after_payload, H. reflexivity. Qed.

Lemma do_POST_not_an_object (running_loop : bool) (os : OS) (v : pyval) :
  read_payload lib req = Return v ->
  (forall d, v <> PDict d) ->
  do_POST running_loop lib os req
  = Raise (mkExc AttributeError
             ("'" +:+ type_name v +:+ "' object has no attribute 'get'")).
Proof.
  intros H Hv. rewrite do_POST_after_payload, H.
  destruct v; try reflexivity. by destruct (Hv d).
Qed.

Lemma do_POST_object (os : OS) (d : gmap string pyval) :
  read_payload lib req = Return (PDict d) ->
  do_POST false lib os req
  = result ← execute_command os (from_option id (PStr "") (d !! "command"))
                                (from_option id PNone (d !! "cwd"));
    Return (Some (ok_response result)).
Proof. intros H. rewrite do_POST_after_payload, H. reflexivity. Qed.

End Dispatcher.

(** Every way out of [execute_command]: one of its two result shapes, or
    an exception that [except Exception] does not catch. *)
Lemma execute_command_cases (os : OS) (command cwd : pyval) :
  (exists p, execute_command os command cwd = Return (completed_result p))
  \/ (exists msg, execute_command os command cwd = Return (failed_result msg))
  \/ (exists e, execute_command os command cwd = Raise e
                /\ isinstance e Exception = false).
Proof.
  assert (Hraise : forall e,
    let r := try_except (A := gmap string pyval) (Raise e)
      [ ([TimeoutExpired],
         fun _ => Return (failed_result "Command timed out"));
        ([Exception], fun e => Return (failed_result (exc_str e))) ] in
    (exists msg, r = Return (failed_result msg))
    \/ (r = Raise e /\ isinstance e Exception = false)).
  { intros e r. subst r. unfold try_except. cbn [select_handler existsb].
    destruct (isinstance e TimeoutExpired); cbn [orb]; [left; by eexists |].
    destruct (isinstance e Exception); [left; by eexists | by right]. }
  unfold execute_command, subprocess_run.
  destruct (working_dir os cwd) as [wd|e]; cbn [mbind res_bind].
  - destruct (spawn os command wd) as [p|e]; cbn [mbind res_bind].
    + destruct (elapsed p) as [t|].
      * destruct (t <=? 30).
        -- destruct (undecodable p) as [msg|].
           ++ right. left. by exists msg.
           ++ left. by exists p.
        -- right. left. by eexists.
      * right. left. by eexists.
    + right. destruct (Hraise e) as [H|H]; [by left | right; by exists e].
  - right. destruct (Hraise e) as [H|H]; [by left | right; by exists e].
Qed.

Lemma execute_command_result_shape (os : OS) (command cwd : pyval)
    (d : gmap string pyval) :
  execute_command os command cwd = Return d ->
  has_result_shape (PDict d) = true.
Proof.
  intros H.
  destruct (execute_command_cases os command cwd)
    as [(p & Hp) | [(msg & Hm) | (e & He & _)]];
    rewrite H in *; simplify_eq; reflexivity.
Qed.

(** As wired in [main], the handler runs inside the event loop that
    executes [main]: a well-formed request never reaches the executor. *)
Lemma serve_request_object (lib : Lib) (os : OS) (req : Request)
    (d : gmap string pyval) :
  path req = "/mcp/execute" ->
  read_payload lib req = Return (PDict d) ->
  serve_request lib os req
  = Raise (mkExc RuntimeError
             "asyncio.run() cannot be called from a running event loop").
Proof.
  intros Hpath H. unfold serve_request.
  rewrite (do_POST_after_payload lib req Hpath), H. reflexivity.
Qed.

(** C5 (as amended): the handler does not validate the payload.  For a
    request to [/mcp/execute] whose payload is a JSON object without a
    [command] field, the empty string is substituted and passed to the
    executor, and the executor's result is answered with status 200 (where
    [asyncio.run] can start the coroutine); a payload that does not
    parse, or that parses to something other than an object, makes the
    handler raise before anything is written, whatever the host, so the
    executor is not consulted and no response of any shape is sent. *)
Theorem do_POST_does_not_validate (lib : Lib) (req : Request) :
  path req = "/mcp/execute" ->
  (forall os d, read_payload lib req = Return (PDict d) ->
     d !! "command" = None ->
     do_POST false lib os req
     = (result ← execute_command os (PStr "")
                   (from_option id PNone (d !! "cwd"));
        Return (Some (ok_response result)))
     /\ forall result,
          execute_command os (PStr "") (from_option id PNone (d !! "cwd"))
          = Return result ->
          do_POST false lib os req = Return (Some (ok_response result))
          /\ has_result_shape (body (ok_response result)) = true
          /\ ~ rejected (do_POST false lib os req))
  /\ (forall running_loop os e, read_payload lib req = Raise e ->
        do_POST running_loop lib os req = Raise e
        /\ ~ rejected (do_POST running_loop lib os req))
  /\ (forall running_loop os v, read_payload lib req = Return v ->
        (forall d, v <> PDict d) ->
        do_POST running_loop lib os req
        = Raise (mkExc AttributeError
                   ("'" +:+ type_name v +:+ "' object has no attribute 'get'"))
        /\ ~ rejected (do_POST running_loop lib os req)).
Proof.
  intros Hpath. split; [| split].
  - intros os d Hd Hcmd.
    pose proof (do_POST_object lib req Hpath os d Hd) as Heq.
    rewrite Hcmd in Heq. cbn [from_option id] in Heq.
    split; [exact Heq |].
    intros result Hres. rewrite Heq, Hres. cbn [mbind res_bind].
    split; [reflexivity |].
    pose proof (execute_command_result_shape _ _ _ _ Hres) as Hshape.
    split; [exact Hshape |].
    intros (r & Hr & Hno). injection Hr as <-.
    cbn [body ok_response] in Hno. congruence.
  - intros rl os e He.
    rewrite (do_POST_bad_payload lib req Hpath rl os e He).
    split; [reflexivity |]. intros (r & Hr & _). discriminate Hr.
  - intros rl os v Hv Hnd.
    rewrite (do_POST_not_an_object lib req Hpath rl os v Hv Hnd).
    split; [reflexivity |]. intros (r & Hr & _). discriminate Hr.
Qed.

(** The three kinds of payload on the sample host. *)
Lemma do_POST_does_not_validate_witness :
  do_POST false sample_lib sample_os req_empty_object
  = Return (Some (ok_response (completed_result (quick 0 "" ""))))
  /\ do_POST true sample_lib sample_os req_garbage
     = Raise (mkExc JSONDecodeError
                "Expecting value: line 1 column 1 (char 0)")
  /\ do_POST false sample_lib sample_os req_array
     = Raise (mkExc AttributeError "'list' object has no attribute 'get'").
Proof.
  split; [| split].
  - destruct (do_POST_does_not_validate sample_lib req_empty_object eq_refl)
      as (H & _ & _).
    destruct (H sample_os ∅ eq_refl eq_refl) as (_ & H2).
    exact (proj1 (H2 _ eq_refl)).
  - destruct (do_POST_does_not_validate sample_lib req_garbage eq_refl)
      as (_ & H & _).
    exact (proj1 (H true sample_os _ eq_refl)).
  - destruct (do_POST_does_not_validate sample_lib req_array eq_refl)
      as (_ & _ & H).
    refine (proj1 (H false sample_os (PList []) eq_refl _)).
    intros d. discriminate.
Defined.

(** C5 fails as stated: a request whose payload is the object [{}], which
    has no [command] field, is not rejected.  Handled outside an event
    loop it is answered 200 with the result of executing the empty
    command; handled as [main] wires the handler, or with a body that is
    not JSON, the handler raises and writes no response at all. *)
Lemma do_POST_missing_command_not_rejected :
  read_payload sample_lib req_empty_object = Return (PDict ∅)
  /\ execute_command sample_os (PStr "") PNone
     = Return (completed_result (quick 0 "" ""))
  /\ do_POST false sample_lib sample_os req_empty_object
     = Return (Some (ok_response (completed_result (quick 0 "" ""))))
  /\ has_result_shape (PDict (completed_result (quick 0 "" ""))) = true
  /\ ~ rejected (do_POST false sample_lib sample_os req_empty_object)
  /\ ~ rejected (serve_request sample_lib sample_os req_empty_object)
  /\ ~ rejected (do_POST false sample_lib sample_os req_garbage).
Proof.
  assert (H200 : do_POST false sample_lib sample_os req_empty_object
            = Return (Some (ok_response (completed_result (quick 0 "" "")))))
    by reflexivity.
  repeat split; try reflexivity.
  - intros (r & Hr & Hno). rewrite H200 in Hr. injection Hr as <-.
    discriminate Hno.
  - intros (r & Hr & _). discriminate Hr.
  - intros (r & Hr & _). discriminate Hr.
Qed.

(** *** The health checker *)

Section HealthCheck.

Variable lib : Lib.
Variable net : Net.
Variable server : gmap string pyval.
Variables name port : pyval.
Hypothesis Hname : server !! "name" = Some name.
Hypothesis Hport : server !! "port" = Some port.

Lemma getitem_name : getitem server "name" = Return name.
Proof. unfold getitem. by rewrite Hname. Qed.

Lemma getitem_port : getitem server "port" = Return port.
Proof. unfold getitem. by rewrite Hport. Qed.

Lemma failure_report_fields (st er : string) :
  failure_report name st er !! "name" = Some name
  /\ failure_report name st er !! "status" = Some (PStr st)
  /\ failure_report name st er !! "error" = Some (PStr er).
Proof. repeat split. Qed.

(** The three outer [except] clauses, applied to a failure. *)
Lemma outer_handlers (e : exc) :
  isinstance e Exception = true ->
  exists st er,
    try_except (Raise e)
      [ ([ConnectionRefusedError], fun _ =>
           name ← getitem server "name";
           Return (mkdict [ ("name", name);
                            ("status", PStr "down");
                            ("error", PStr "Connection refused") ]));
        ([SocketTimeout], fun _ =>
           name ← getitem server "name";
           Return (mkdict [ ("name", name);
                            ("status", PStr "timeout");
                            ("error", PStr "Request timed out") ]));
        ([Exception], fun e =>
           name ← getitem server "name";
           Return (mkdict [ ("name", name);
                            ("status", PStr "error");
                            ("error", PStr (exc_str e)) ])) ]
    = Return (failure_report name st er)
    /\ st ∈ ["down"; "timeout"; "error"]
    /\ (isinstance e ConnectionRefusedError = true ->
        st = "down" /\ er = "Connection refused")
    /\ (isinstance e ConnectionRefusedError = false ->
        isinstance e SocketTimeout = true ->
        st = "timeout" /\ er = "Request timed out").
Proof.
  intros He. unfold try_except. cbn [select_handler existsb].
  destruct (isinstance e ConnectionRefusedError); cbn [orb].
  { exists "down", "Connection refused". rewrite getitem_name.
    split; [reflexivity | split; [set_solver | split; [done | discriminate]]]. }
  destruct (isinstance e SocketTimeout); cbn [orb].
  { exists "timeout", "Request timed out". rewrite getitem_name.
    split; [reflexivity | split; [set_solver | split; [discriminate | done]]]. }
  rewrite He. exists "error", (exc_str e). rewrite getitem_name.
  split; [reflexivity | split; [set_solver | split; discriminate]].
Qed.

Lemma check_server_refused (e : exc) :
  probe net port = Raise e ->
  exc_cls e = ConnectionRefusedError ->
  check_server lib net server
  = Return (failure_report name "down" "Connection refused").
Proof.
  unfold probe. intros Hp Hc. unfold check_server.
  rewrite getitem_port. cbn [mbind res_bind]. rewrite Hp.
  cbn [mbind res_bind].
  destruct (outer_handlers e) as (st & er & -> & _ & Hd & _).
  { unfold isinstance. by rewrite Hc. }
  destruct Hd as [-> ->]; [unfold isinstance; by rewrite Hc | reflexivity].
Qed.

Lemma check_server_timeout (e : exc) :
  probe net port = Raise e ->
  exc_cls e = SocketTimeout ->
  check_server lib net server
  = Return (failure_report name "timeout" "Request timed out").
Proof.
  unfold probe. intros Hp Hc. unfold check_server.
  rewrite getitem_port. cbn [mbind res_bind]. rewrite Hp.
  cbn [mbind res_bind].
  destruct (outer_handlers e) as (st & er & -> & _ & _ & Ht).
  { unfold isinstance. by rewrite Hc. }
  destruct Ht as [-> ->]; [unfold isinstance; by rewrite Hc .. | reflexivity].
Qed.

Lemma check_server_bad_status (r : HTTPResponse) :
  probe net port = Return r ->
  status r <> 200 ->
  check_server lib net server
  = Return (failure_report name "error"
              ("HTTP " +:+ pretty (status r) +:+ " " +:+ reason r)).
Proof.
  unfold probe. intros Hp Hs. unfold check_server.
  rewrite getitem_port. cbn [mbind res_bind]. rewrite Hp.
  cbn [mbind res_bind].
  destruct (Z.eqb_spec (status r) 200) as [|_]; [done |].
  rewrite getitem_name. reflexivity.
Qed.

(** The inner [try] of a 200 answer, in terms of [body_json]. *)
Lemma inner_try (r : HTTPResponse) :
  try_except
    (raw ← read r;
     text ← decode_utf8 lib raw;
     data ← json_loads lib text;
     name ← getitem server "name";
     Return (mkdict [ ("name", name);
                      ("status", PStr "running");
                      ("status_code", PInt (status r));
                      ("response", data) ]))
    [ ([JSONDecodeError; UnicodeDecodeError], fun _ =>
         name ← getitem server "name";
         Return (mkdict [ ("name", name);
                          ("status", PStr "error");
                          ("error", PStr "Invalid JSON response") ])) ]
  = match body_json lib r with
    | Return data =>
        Return (mkdict [ ("name", name);
                         ("status", PStr "running");
                         ("status_code", PInt (status r));
                         ("response", data) ])
    | Raise e =>
        if isinstance e JSONDecodeError || isinstance e UnicodeDecodeError
        then Return (failure_report name "error" "Invalid JSON response")
        else Raise e
    end.
Proof.
  rewrite getitem_name.
  assert (Hh : forall e,
    try_except (A := gmap string pyval) (Raise e)
      [ ([JSONDecodeError; UnicodeDecodeError], fun _ =>
           name ← Return name;
           Return (mkdict [ ("name", name);
                            ("status", PStr "error");
                            ("error", PStr "Invalid JSON response") ])) ]
    = if isinstance e JSONDecodeError || isinstance e UnicodeDecodeError
      then Return (failure_report name "error" "Invalid JSON response")
      else Raise e).
  { intros e. unfold try_except. cbn [select_handler existsb].
    rewrite orb_false_r.
    by destruct (isinstance e JSONDecodeError
                 || isinstance e UnicodeDecodeError). }
  unfold body_json.
  destruct (read r) as [raw|e]; cbn [mbind res_bind]; [| apply Hh].
  destruct (decode_utf8 lib raw) as [text|e]; cbn [mbind res_bind];
    [| apply Hh].
  destruct (json_loads lib text) as [data|e]; cbn [mbind res_bind];
    [| apply Hh].
  reflexivity.
Qed.

Lemma check_server_bad_body (r : HTTPResponse) (e : exc) :
  probe net port = Return r ->
  status r = 200 ->
  body_json lib r = Raise e ->
  exc_cls e = JSONDecodeError \/ exc_cls e = UnicodeDecodeError ->
  check_server lib net server
  = Return (failure_report name "error" "Invalid JSON response").
Proof.
  unfold probe. intros Hp Hs Hb Hc. unfold check_server.
  rewrite getitem_port. cbn [mbind res_bind]. rewrite Hp.
  cbn [mbind res_bind].
  destruct (Z.eqb_spec (status r) 200) as [_|Hn]; [| done].
  rewrite inner_try, Hb.
  replace (isinstance e JSONDecodeError || isinstance e UnicodeDecodeError)
    with true; [reflexivity |].
  unfold isinstance. destruct Hc as [-> | ->]; reflexivity.
Qed.

(** No failure of the probe leaves [check_server] as an exception. *)
Lemma check_server_total :
  probe_fails_properly lib net port ->
  exists d : gmap string pyval,
    check_server lib net server = Return d
    /\ d !! "name" = Some name
    /\ exists st, d !! "status" = Some (PStr st)
                  /\ st ∈ ["running"; "down"; "timeout"; "error"].
Proof.
  intros [Hprobe Hbody]. unfold probe in *. unfold check_server.
  rewrite getitem_port. cbn [mbind res_bind].
  destruct (http_get net "localhost" port 2 "/health") as [r|e] eqn:Hp;
    cbn [mbind res_bind].
  - destruct (status r =? 200).
    + rewrite inner_try.
      destruct (body_json lib r) as [data|e] eqn:Hb.
      * eexists. split; [reflexivity |].
        split; [reflexivity |]. exists "running".
        split; [reflexivity | set_solver].
      * destruct (isinstance e JSONDecodeError
                  || isinstance e UnicodeDecodeError).
        -- eexists. split; [reflexivity |]. split; [reflexivity |].
           exists "error". split; [reflexivity | set_solver].
        -- destruct (outer_handlers e) as (st & er & -> & Hin & _).
           { by apply (Hbody r). }
           eexists. split; [reflexivity |]. split; [reflexivity |].
           exists st. split; [reflexivity |].
           by apply list_elem_of_further.
    + rewrite getitem_name. eexists. split; [reflexivity |].
      split; [reflexivity |].
      exists "error". split; [reflexivity | set_solver].
  - destruct (outer_handlers e) as (st & er & -> & Hin & _).
    { by apply Hprobe. }
    eexists. split; [reflexivity |]. split; [reflexivity |].
    exists st. split; [reflexivity |]. by apply list_elem_of_further.
Qed.

End HealthCheck.

(** A batch in which every check returns is reported server by server. *)
Lemma mapM_all_return {A B} (f : A -> res B) (xs : list A) :
  Forall (fun x => exists y, f x = Return y) xs ->
  exists ys, mapM f xs = Return ys
             /\ Forall2 (fun x y => f x = Return y) xs ys.
Proof.
  induction 1 as [| x xs [y Hy] _ (ys & Hys & IH)].
  - exists []. split; [reflexivity | constructor].
  - exists (y :: ys). cbn [mapM]. rewrite Hy. cbn [mbind res_bind].
    rewrite Hys. split; [reflexivity | by constructor].
Qed.

(** C8 (as amended): for a polled server, a refused connection is
    reported with status ["down"], a timed-out request with status
    ["timeout"], and both a non-200 answer and a 200 answer whose body is
    not JSON with the same status ["error"], told apart by the [error]
    text only (["HTTP <status> <reason>"] against
    ["Invalid JSON response"]).  No failure leaves the per-server check as
    an exception, and the batch holds one report per server, in order,
    whatever happened to the others. *)
Theorem check_server_failure_categories (lib : Lib) (net : Net) :
  (forall server name port,
     server !! "name" = Some name -> server !! "port" = Some port ->
     (forall e, probe net port = Raise e ->
        exc_cls e = ConnectionRefusedError ->
        check_server lib net server
        = Return (failure_report name "down" "Connection refused"))
     /\ (forall e, probe net port = Raise e ->
           exc_cls e = SocketTimeout ->
           check_server lib net server
           = Return (failure_report name "timeout" "Request timed out"))
     /\ (forall r, probe net port = Return r -> status r <> 200 ->
           check_server lib net server
           = Return (failure_report name "error"
                       ("HTTP " +:+ pretty (status r) +:+ " " +:+ reason r))
           /\ "HTTP " +:+ pretty (status r) +:+ " " +:+ reason r
              <> "Invalid JSON response")
     /\ (forall r e, probe net port = Return r -> status r = 200 ->
           body_json lib r = Raise e ->
           exc_cls e = JSONDecodeError \/ exc_cls e = UnicodeDecodeError ->
           check_server lib net server
           = Return (failure_report name "error" "Invalid JSON response"))
     /\ (probe_fails_properly lib net port ->
         exists d : gmap string pyval,
           check_server lib net server = Return d
           /\ d !! "name" = Some name
           /\ exists st, d !! "status" = Some (PStr st)
                         /\ st ∈ ["running"; "down"; "timeout"; "error"]))
  /\ (forall servers, Forall (checkable lib net) servers ->
        exists reports,
          check_all lib net servers = Return reports
          /\ Forall2 (fun server d =>
                        check_server lib net server = Return d
                        /\ d !! "name" = server !! "name")
               servers reports).
Proof.
  split.
  - intros server name port Hname Hport.
    split; [| split; [| split; [| split]]].
    + exact (check_server_refused lib net server name port Hname Hport).
    + exact (check_server_timeout lib net server name port Hname Hport).
    + intros r Hp Hs. split; [| cbn; discriminate].
      exact (check_server_bad_status lib net server name port Hname Hport
               r Hp Hs).
    + exact (check_server_bad_body lib net server name port Hname Hport).
    + exact (check_server_total lib net server name port Hname Hport).
  - intros servers Hall.
    destruct (mapM_all_return (check_server lib net) servers)
      as (reports & Hmap & Hrep).
    { eapply Forall_impl; [exact Hall |].
      intros server (name & port & Hname & Hport & Hfail). cbn beta.
      destruct (check_server_total lib net server name port Hname Hport Hfail)
        as (d & Hd & _). by exists d. }
    exists reports. split; [exact Hmap |].
    clear Hmap. induction Hrep as [| server d servers reports Hd _ IH];
      [constructor |].
    apply Forall_cons in Hall as [(name & port & Hname & Hport & Hfail) Hall].
    constructor; [| by apply IH].
    split; [exact Hd |].
    destruct (check_server_total lib net server name port Hname Hport Hfail)
      as (d' & Hd' & Hn & _).
    rewrite Hd in Hd'. injection Hd' as <-. by rewrite Hn, Hname.
Qed.

(** Every probe of the sample network fails, if at all, properly. *)
Lemma sample_servers_checkable :
  Forall (checkable sample_lib sample_net) MCP_SERVERS.
Proof.
  assert (Hc : forall n port,
            probe_fails_properly sample_lib sample_net (PInt port) ->
            checkable sample_lib sample_net (server_entry n port)).
  { intros n port H. exists (PStr n), (PInt port).
    split; [reflexivity | split; [reflexivity | exact H]]. }
  repeat constructor; apply Hc; (split; [| intros r [= <-]]); intros e He;
    vm_compute in He; first [discriminate He | injection He as <-; reflexivity].
Qed.

(** The six servers on the sample network. *)
Lemma check_server_failure_categories_witness :
  check_server sample_lib sample_net (server_entry "Filesystem" 13001)
  = Return (failure_report (PStr "Filesystem") "down" "Connection refused")
  /\ check_server sample_lib sample_net (server_entry "Terminal" 13002)
     = Return (failure_report (PStr "Terminal") "timeout" "Request timed out")
  /\ exists reports,
       main sample_lib sample_net = Return reports
       /\ Forall2 (fun server d =>
                     check_server sample_lib sample_net server = Return d
                     /\ d !! "name" = server !! "name")
            MCP_SERVERS reports.
Proof.
  destruct (check_server_failure_categories sample_lib sample_net)
    as [Hone Hall].
  split; [| split].
  - destruct (Hone (server_entry "Filesystem" 13001) (PStr "Filesystem")
                (PInt 13001) eq_refl eq_refl) as (H & _).
    exact (H refused eq_refl eq_refl).
  - destruct (Hone (server_entry "Terminal" 13002) (PStr "Terminal")
                (PInt 13002) eq_refl eq_refl) as (_ & H & _).
    exact (H timed_out eq_refl eq_refl).
  - exact (Hall MCP_SERVERS sample_servers_checkable).
Defined.

(** C8 fails as stated: a non-200 answer (port 13003 answers 503) and a
    200 answer whose body is not JSON (port 13004 answers [<html>]) are
    two of the four failure causes, and both are reported with the status
    ["error"]. *)
Lemma check_server_statuses_not_distinct :
  probe sample_net (PInt 13003)
  = Return {| status := 503; reason := "Service Unavailable";
              read := Return "" |}
  /\ probe sample_net (PInt 13004)
     = Return {| status := 200; reason := "OK"; read := Return "<html>" |}
  /\ body_json sample_lib
       {| status := 200; reason := "OK"; read := Return "<html>" |}
     = Raise (mkExc JSONDecodeError
                "Expecting value: line 1 column 1 (char 0)")
  /\ field (check_server sample_lib sample_net (server_entry "Kubectl" 13003))
       "status" = Some (PStr "error")
  /\ field (check_server sample_lib sample_net (server_entry "Helm" 13004))
       "status" = Some (PStr "error")
  /\ field (check_server sample_lib sample_net (server_entry "Kubectl" 13003))
       "status"
     = field (check_server sample_lib sample_net (server_entry "Helm" 13004))
         "status".
Proof. repeat split. Qed.

(* ===================================================================== *)
(** ** Further properties                                                 *)
(* ===================================================================== *)

Import Notions Report.

(** *** Substring search *)

Lemma prefix_append (a b : string) : String.prefix a (a +:+ b) = true.
Proof.
  induction a as [| c a IH]; [by destruct b |].
  simpl. destruct (ascii_dec c c); [exact IH | done].
Qed.

Lemma prefix_split (a s : string) :
  String.prefix a s = true -> exists post, s = a +:+ post.
Proof.
  revert s. induction a as [| c a IH]; intros s H.
  - by exists s.
  - destruct s as [| c' s]; [discriminate H |]. simpl in H.
    destruct (ascii_dec c c') as [<- |]; [| discriminate H].
    destruct (IH s H) as [post ->]. by exists post.
Qed.

Lemma contains_prefix (needle s : string) :
  String.prefix needle s = true -> contains needle s = true.
Proof.
  intros H. destruct s as [| c s].
  - change (contains needle EmptyString)
      with (String.prefix needle EmptyString || false). by rewrite H.
  - change (contains needle (String c s))
      with (String.prefix needle (String c s) || contains needle s).
    by rewrite H.
Qed.

(** [contains] is the substring test. *)
Lemma contains_occurs (needle s : string) :
  contains needle s = true <-> occurs needle s.
Proof.
  split.
  - induction s as [| c s IH]; cbn [contains]; intros H.
    + rewrite orb_false_r in H. destruct (prefix_split _ _ H) as [post ->].
      by exists EmptyString, post.
    + apply orb_true_iff in H as [H | H].
      * destruct (prefix_split _ _ H) as [post ->].
        by exists EmptyString, post.
      * destruct (IH H) as (pre & post & ->). by exists (String c pre), post.
  - intros (pre & post & ->). induction pre as [| c pre IH].
    + change (EmptyString +:+ needle +:+ post) with (needle +:+ post).
      apply contains_prefix, prefix_append.
    + simpl. rewrite IH. apply orb_true_r.
Qed.

(** *** The analyzer, continued *)


(** X2: which suggestion is given.  The force-push advice is given
    exactly when git and push occur; the destructive-command warning
    exactly when rm and -rf occur and git and push do not both occur;
    the sudo advice exactly when sudo occurs and neither of the two
    other patterns does.  In particular a command with git and push in
    it is never flagged as destructive. *)
Theorem analyze_command_suggestion_priority
    (self : TerminalMCPServer) (command : string)
    (context : gmap string pyval) :
  (analyze_command self command context !! "suggestions"
   = Some (PList [PStr suggest_git_push])
   <-> occurs "git" command /\ occurs "push" command)
  /\ (analyze_command self command context !! "suggestions"
      = Some (PList [PStr suggest_rm_rf])
      <-> ~ (occurs "git" command /\ occurs "push" command)
          /\ occurs "rm" command /\ occurs "-rf" command)
  /\ (analyze_command self command context !! "suggestions"
      = Some (PList [PStr suggest_sudo])
      <-> ~ (occurs "git" command /\ occurs "push" command)
          /\ ~ (occurs "rm" command /\ occurs "-rf" command)
          /\ occurs "sudo" command).
Proof.
  rewrite analyze_command_suggestions. unfold suggestions_of.
  rewrite <- !contains_occurs.
  destruct (contains "git" command), (contains "push" command),
    (contains "rm" command), (contains "-rf" command),
    (contains "sudo" command); cbn; intuition discriminate.
Qed.

(** *** The executor, continued *)

(** X3: a result with [success = true] is only ever returned for a
    process that was launched, exited within the 30-unit bound and
    exited with code 0; the result then carries [return_code = 0] and the
    captured output. *)
Theorem execute_command_success_only_if_completed
    (os : OS) (command cwd : pyval) (d : gmap string pyval) :
  execute_command os command cwd = Return d ->
  d !! "success" = Some (PBool true) ->
  exists wd p t,
    working_dir os cwd = Return wd
    /\ spawn os command wd = Return p
    /\ elapsed p = Some t /\ t <= 30
    /\ exit_code p = 0
    /\ d !! "return_code" = Some (PInt 0)
    /\ d !! "output" = Some (PStr (out_text p))
    /\ d !! "error" = Some (PStr (err_text p)).
Proof.
  unfold execute_command, subprocess_run. intros Hd Hs.
  assert (Hno : forall e,
            try_except (A := gmap string pyval) (Raise e)
              [ ([TimeoutExpired], fun _ =>
                   Return (mkdict [ ("success", PBool false);
                                    ("error", PStr "Command timed out") ]));
                ([Exception], fun e =>
                   Return (mkdict [ ("success", PBool false);
                                    ("error", PStr (exc_str e)) ])) ]
            = Return d -> False).
  { intros e. rewrite execute_command_except.
    destruct (isinstance e TimeoutExpired);
      [| destruct (isinstance e Exception)]; intros [= <-]; discriminate Hs. }
  destruct (working_dir os cwd) as [wd|e]; cbn [mbind res_bind] in Hd;
    [| destruct (Hno e Hd)].
  destruct (spawn os command wd) as [p|e] eqn:Hsp; cbn [mbind res_bind] in Hd;
    [| destruct (Hno e Hd)].
  destruct (elapsed p) as [t|] eqn:Hel; [| destruct (Hno _ Hd)].
  destruct (Z.leb_spec t 30) as [Hle|Hgt]; [| destruct (Hno _ Hd)].
  destruct (undecodable p) as [msg|]; [destruct (Hno _ Hd) |].
  cbn [mbind res_bind try_except returncode stdout stderr] in Hd.
  injection Hd as <-.
  assert (Hz : exit_code p = 0).
  { change (Some (PBool (exit_code p =? 0)) = Some (PBool true)) in Hs.
    injection Hs as Hs. by apply Z.eqb_eq. }
  exists wd, p, t. repeat split; try done.
  change (Some (PInt (exit_code p)) = Some (PInt 0)). by rewrite Hz.
Qed.

(** [echo hello] on the sample host. *)
Lemma execute_command_success_only_if_completed_witness :
  exists wd p t,
    working_dir sample_os PNone = Return wd
    /\ spawn sample_os (PStr "echo hello") wd = Return p
    /\ elapsed p = Some t /\ t <= 30
    /\ exit_code p = 0
    /\ completed_result (quick 0 "hello" "") !! "return_code"
       = Some (PInt 0)
    /\ completed_result (quick 0 "hello" "") !! "output"
       = Some (PStr (out_text p))
    /\ completed_result (quick 0 "hello" "") !! "error"
       = Some (PStr (err_text p)).
Proof.
  apply (execute_command_success_only_if_completed sample_os
           (PStr "echo hello") PNone (completed_result (quick 0 "hello" "")));
    reflexivity.
Defined.

(** X4: the two shapes of a result.  A returned result has either the
    four keys [success], [output], [error], [return_code], with
    [success] telling whether [return_code] is 0, or the two keys
    [success] and [error] only, with [success = false]; [error] is a
    string in both. *)
Theorem execute_command_result_keys
    (os : OS) (command cwd : pyval) (d : gmap string pyval) :
  execute_command os command cwd = Return d ->
  (exists msg, d !! "error" = Some (PStr msg))
  /\ ((dom d = {[ "success"; "output"; "error"; "return_code" ]}
       /\ exists code out,
            d !! "return_code" = Some (PInt code)
            /\ d !! "success" = Some (PBool (code =? 0))
            /\ d !! "output" = Some (PStr out))
      \/ (dom d = {[ "success"; "error" ]}
          /\ d !! "success" = Some (PBool false))).
Proof.
  intros Hd.
  destruct (execute_command_cases os command cwd)
    as [(p & Hp) | [(msg & Hm) | (e & He & _)]]; rewrite Hd in *;
    simplify_eq.
  - split; [by eexists |]. left. split; [| by do 2 eexists].
    unfold completed_result, mkdict. cbn [foldl fst snd].
    rewrite !dom_insert_L, dom_empty_L. set_solver.
  - split; [by eexists |]. right. split; [| done].
    unfold failed_result, mkdict. cbn [foldl fst snd].
    rewrite !dom_insert_L, dom_empty_L. set_solver.
Qed.

(** A command that is not found exits with code 127. *)
Lemma execute_command_result_keys_witness :
  (exists msg,
     completed_result (quick 127 "" "/bin/sh: 1: not found") !! "error"
     = Some (PStr msg))
  /\ ((dom (completed_result (quick 127 "" "/bin/sh: 1: not found"))
       = {[ "success"; "output"; "error"; "return_code" ]}
       /\ exists code out,
            completed_result (quick 127 "" "/bin/sh: 1: not found")
              !! "return_code" = Some (PInt code)
            /\ completed_result (quick 127 "" "/bin/sh: 1: not found")
                 !! "success" = Some (PBool (code =? 0))
            /\ completed_result (quick 127 "" "/bin/sh: 1: not found")
                 !! "output" = Some (PStr out))
      \/ (dom (completed_result (quick 127 "" "/bin/sh: 1: not found"))
          = {[ "success"; "error" ]}
          /\ completed_result (quick 127 "" "/bin/sh: 1: not found")
               !! "success" = Some (PBool false))).
Proof.
  apply (execute_command_result_keys sample_os (PStr "frobnicate")
           (PStr "/tmp")).
  reflexivity.
Defined.

(** X5: a working directory that is false as a truth value ([None], the
    empty string, ...) stands for no working directory: the command runs
    in the directory [os.getcwd()] gives, exactly as if that directory
    had been passed; and when [os.getcwd()] itself fails, no process is
    launched and the failure is the result. *)
Theorem execute_command_falsy_cwd
    (os : OS) (command cwd : pyval) :
  truthy cwd = false ->
  execute_command os command cwd = execute_command os command PNone
  /\ (forall here, os_getcwd os = Return here -> here <> "" ->
        execute_command os command cwd
        = execute_command os command (PStr here))
  /\ (forall e os',
        os_getcwd os = Raise e -> os_getcwd os' = Raise e ->
        execute_command os command cwd = execute_command os' command cwd).
Proof.
  intros Hc. unfold execute_command, working_dir. rewrite Hc.
  cbn [truthy]. split; [reflexivity | split].
  - intros here Hg Hne. rewrite Hg. cbn [mbind res_bind truthy].
    destruct (String.eqb_spec here "") as [-> | _]; [done | reflexivity].
  - intros e os' Hg Hg'. rewrite Hg, Hg'. reflexivity.
Qed.

(** An empty [cwd] on the sample host, whose directory is [/srv/wave]. *)
Lemma execute_command_falsy_cwd_witness :
  execute_command sample_os (PStr "echo hello") (PStr "")
  = execute_command sample_os (PStr "echo hello") PNone
  /\ (forall here, os_getcwd sample_os = Return here -> here <> "" ->
        execute_command sample_os (PStr "echo hello") (PStr "")
        = execute_command sample_os (PStr "echo hello") (PStr here))
  /\ (forall e os',
        os_getcwd sample_os = Raise e -> os_getcwd os' = Raise e ->
        execute_command sample_os (PStr "echo hello") (PStr "")
        = execute_command os' (PStr "echo hello") (PStr "")).
Proof.
  apply (execute_command_falsy_cwd sample_os (PStr "echo hello") (PStr "")).
  reflexivity.
Defined.

(** X6: a working directory that is given (true as a truth value) is
    passed to the launch as it is and [os.getcwd()] is not consulted: the
    result is the same on any host that launches this command in this
    directory in the same way, whatever its [os.getcwd()] does. *)
Theorem execute_command_given_cwd
    (os os' : OS) (command cwd : pyval) :
  truthy cwd = true ->
  spawn os command cwd = spawn os' command cwd ->
  working_dir os cwd = Return cwd
  /\ execute_command os command cwd = execute_command os' command cwd.
Proof.
  intros Hc Hsp. unfold execute_command, subprocess_run, working_dir.
  rewrite Hc. cbn [mbind res_bind]. by rewrite Hsp.
Qed.

(** The sample host, and the same host after its own directory is gone. *)
Lemma execute_command_given_cwd_witness :
  working_dir sample_os (PStr "/tmp") = Return (PStr "/tmp")
  /\ execute_command sample_os (PStr "echo hello") (PStr "/tmp")
     = execute_command
         {| spawn := spawn sample_os;
            os_getcwd := Raise (mkExc OSError
                                  "[Errno 2] No such file or directory") |}
         (PStr "echo hello") (PStr "/tmp").
Proof.
  apply (execute_command_given_cwd sample_os
           {| spawn := spawn sample_os;
              os_getcwd := Raise (mkExc OSError
                                    "[Errno 2] No such file or directory") |}
           (PStr "echo hello") (PStr "/tmp")); reflexivity.
Defined.

(** X7: an exception raised by the launch that does not derive from
    [Exception] (a [KeyboardInterrupt], a [SystemExit]) is not turned
    into a result: it leaves [execute_command] unchanged. *)
Theorem execute_command_propagates_exit
    (os : OS) (command cwd : pyval) (e : exc) :
  launch_fails_with os command cwd e ->
  isinstance e Exception = false ->
  execute_command os command cwd = Raise e.
Proof.
  intros Hl He.
  assert (Ht : isinstance e TimeoutExpired = false).
  { unfold isinstance in *. destruct (exc_cls e); try done. }
  unfold execute_command, subprocess_run.
  destruct Hl as [Hwd | (wd & Hwd & Hsp)]; rewrite Hwd;
    cbn [mbind res_bind]; [| rewrite Hsp; cbn [mbind res_bind]];
    by rewrite execute_command_except, Ht, He.
Qed.

(** A host on which the launch is interrupted from the keyboard. *)
Lemma execute_command_propagates_exit_witness :
  execute_command
    {| spawn := fun _ _ => Raise (mkExc KeyboardInterrupt "");
       os_getcwd := Return "/srv/wave" |}
    (PStr "sleep 60") PNone
  = Raise (mkExc KeyboardInterrupt "").
Proof.
  apply (execute_command_propagates_exit
           {| spawn := fun _ _ => Raise (mkExc KeyboardInterrupt "");
              os_getcwd := Return "/srv/wave" |}
           (PStr "sleep 60") PNone (mkExc KeyboardInterrupt ""));
    [right; exists (PStr "/srv/wave"); split; reflexivity | reflexivity].
Defined.

(** *** The dispatcher, continued *)

(** X8: whenever the handler writes a response, the request was for
    [/mcp/execute], the status is 200 and the content type JSON, and the
    body is the result of [execute_command] on the payload's [command]
    and [cwd] (defaulting to [''] and [None]); this includes results
    with [success = false]: a failed or timed-out execution is not
    signalled by the HTTP status. *)
Theorem do_POST_response_is_200
    (running_loop : bool) (lib : Lib) (os : OS) (req : Request)
    (r : Response) :
  do_POST running_loop lib os req = Return (Some r) ->
  path req = "/mcp/execute"
  /\ running_loop = false
  /\ status_code r = 200
  /\ resp_headers r = [("Content-type", "application/json")]
  /\ exists payload result,
       read_payload lib req = Return (PDict payload)
       /\ execute_command os
            (from_option id (PStr "") (payload !! "command"))
            (from_option id PNone (payload !! "cwd")) = Return result
       /\ body r = PDict result
       /\ exists b, result !! "success" = Some (PBool b).
Proof.
  intros H.
  destruct (String.eqb_spec (path req) "/mcp/execute") as [Hpath | Hne].
  - rewrite (do_POST_after_payload lib req Hpath) in H.
    destruct (read_payload lib req) as [data|e]; [| discriminate H].
    cbn [mbind res_bind] in H.
    destruct data as [| | | | |payload]; try discriminate H.
    cbn [py_get mbind res_bind] in H.
    destruct running_loop; [discriminate H |]. cbn [asyncio_run] in H.
    destruct (execute_command os _ _) as [result|e] eqn:Hex;
      [| discriminate H].
    cbn [mbind res_bind] in H. injection H as <-.
    do 4 (split; [done |]). exists payload, result.
    do 3 (split; [done |]).
    destruct (execute_command_cases os
                (from_option id (PStr "") (payload !! "command"))
                (from_option id PNone (payload !! "cwd")))
      as [(p & Hp) | [(msg & Hm) | (e & He & _)]]; rewrite Hex in *;
      simplify_eq; by eexists.
  - unfold do_POST in H.
    destruct (String.eqb_spec (path req) "/mcp/execute"); [done |].
    discriminate H.
Qed.

(** On a host where every command hangs, the answer is still a 200. *)
Lemma do_POST_response_is_200_witness :
  path req_empty_object = "/mcp/execute"
  /\ false = false
  /\ status_code (ok_response (failed_result "Command timed out")) = 200
  /\ resp_headers (ok_response (failed_result "Command timed out"))
     = [("Content-type", "application/json")]
  /\ exists payload result,
       read_payload sample_lib req_empty_object = Return (PDict payload)
       /\ execute_command
            {| spawn := fun _ _ =>
                 Return {| elapsed := None; exit_code := 0;
                           out_text := ""; err_text := "";
                           undecodable := None |};
               os_getcwd := Return "/srv/wave" |}
            (from_option id (PStr "") (payload !! "command"))
            (from_option id PNone (payload !! "cwd")) = Return result
       /\ body (ok_response (failed_result "Command timed out"))
          = PDict result
       /\ exists b, result !! "success" = Some (PBool b).
Proof.
  apply (do_POST_response_is_200 false sample_lib
           {| spawn := fun _ _ =>
                Return {| elapsed := None; exit_code := 0;
                          out_text := ""; err_text := "";
                          undecodable := None |};
              os_getcwd := Return "/srv/wave" |}
           req_empty_object
           (ok_response (failed_result "Command timed out"))).
  reflexivity.
Defined.

(** X9: the handler returns without writing anything and without raising
    exactly for the requests whose path is not [/mcp/execute]; for those
    it reads neither the headers nor the body and runs nothing.  No
    other path, in particular none for [analyze_command], is served. *)
Theorem do_POST_silent_iff_other_path
    (running_loop : bool) (lib : Lib) (os : OS) (req : Request) :
  do_POST running_loop lib os req = Return None
  <-> path req <> "/mcp/execute".
Proof.
  split.
  - intros H Hpath.
    rewrite (do_POST_after_payload lib req Hpath) in H.
    destruct (read_payload lib req) as [data|e]; [| discriminate H].
    cbn [mbind res_bind] in H.
    destruct data as [| | | | |payload]; try discriminate H.
    cbn [py_get mbind res_bind] in H.
    destruct running_loop; [discriminate H |]. cbn [asyncio_run] in H.
    destruct (execute_command os _ _); discriminate H.
  - intros Hne. unfold do_POST.
    by destruct (String.eqb_spec (path req) "/mcp/execute").
Qed.


Lemma substring_none (s : string) : String.substring 0 0 s = EmptyString.
Proof. by destruct s. Qed.

Lemma substring_append (a b : string) :
  String.substring 0 (String.length a) (a +:+ b) = a.
Proof.
  induction a as [| c a IH]; simpl; [apply substring_none | by rewrite IH].
Qed.

Lemma substring_all (a : string) :
  String.substring 0 (String.length a) a = a.
Proof. induction a as [| c a IH]; simpl; [done | by rewrite IH]. Qed.

(** X11: the handler parses the first [Content-Length] bytes that follow
    the headers and nothing more: bytes sent beyond the announced length
    have no influence on the outcome. *)
Theorem do_POST_ignores_bytes_past_content_length
    (running_loop : bool) (lib : Lib) (os : OS) (req : Request)
    (v data extra : string) :
  headers_get (headers req) "Content-Length" = Some v ->
  int_of_str lib v = Return (Z.of_nat (String.length data)) ->
  do_POST running_loop lib os (with_body req (data +:+ extra))
  = do_POST running_loop lib os (with_body req data).
Proof.
  intros Hh Hi. unfold do_POST, with_body. cbn [path headers rfile].
  rewrite Hh, Hi. cbn [mbind res_bind]. unfold rfile_read.
  destruct (Z.ltb_spec (Z.of_nat (String.length data)) 0) as [Hneg | _];
    [lia |].
  by rewrite Nat2Z.id, substring_append, substring_all.
Qed.

(** Two bytes announced, nine sent. *)
Lemma do_POST_ignores_bytes_past_content_length_witness :
  do_POST false sample_lib sample_os
    (with_body {| path := "/mcp/execute";
                  headers := [("content-length", "2")];
                  rfile := "" |} ("{}" +:+ "garbage"))
  = do_POST false sample_lib sample_os
      (with_body {| path := "/mcp/execute";
                    headers := [("content-length", "2")];
                    rfile := "" |} "{}").
Proof.
  apply (do_POST_ignores_bytes_past_content_length false sample_lib
           sample_os
           {| path := "/mcp/execute";
              headers := [("content-length", "2")];
              rfile := "" |} "2" "{}" "garbage"); reflexivity.
Defined.

(** X12: a request without a [Content-Length] header is handled as if
    it had no body: zero bytes are read, so whatever was sent after the
    headers has no influence on the outcome. *)
Theorem do_POST_without_content_length
    (running_loop : bool) (lib : Lib) (os : OS) (req : Request)
    (data : string) :
  headers_get (headers req) "Content-Length" = None ->
  do_POST running_loop lib os (with_body req data)
  = do_POST running_loop lib os (with_body req EmptyString).
Proof.
  intros Hh. unfold do_POST, with_body. cbn [path headers rfile].
  rewrite Hh. cbn [mbind res_bind]. unfold rfile_read.
  cbn [Z.ltb Z.compare Z.to_nat]. by rewrite !substring_none.
Qed.

(** A well-formed payload sent without the header is not even parsed. *)
Lemma do_POST_without_content_length_witness :
  do_POST false sample_lib sample_os
    (with_body {| path := "/mcp/execute"; headers := []; rfile := "" |} "{}")
  = do_POST false sample_lib sample_os
      (with_body {| path := "/mcp/execute"; headers := []; rfile := "" |}
         EmptyString).
Proof.
  apply (do_POST_without_content_length false sample_lib sample_os
           {| path := "/mcp/execute"; headers := []; rfile := "" |} "{}").
  reflexivity.
Defined.

(** *** The health checker, continued *)

Section HealthCheckMore.

Variable lib : Lib.
Variable net : Net.
Variable server : gmap string pyval.
Variables name port : pyval.
Hypothesis Hname : server !! "name" = Some name.
Hypothesis Hport : server !! "port" = Some port.

(** The three outer [except] clauses on any exception. *)
Lemma outer_handlers_cases (e : exc) :
  let handled :=
    try_except (Raise e)
      [ ([ConnectionRefusedError], fun _ =>
           name ← getitem server "name";
           Return (mkdict [ ("name", name);
                            ("status", PStr "down");
                            ("error", PStr "Connection refused") ]));
        ([SocketTimeout], fun _ =>
           name ← getitem server "name";
           Return (mkdict [ ("name", name);
                            ("status", PStr "timeout");
                            ("error", PStr "Request timed out") ]));
        ([Exception], fun e =>
           name ← getitem server "name";
           Return (mkdict [ ("name", name);
                            ("status", PStr "error");
                            ("error", PStr (exc_str e)) ])) ] in
  (exists st er, handled = Return (failure_report name st er)
                 /\ st ∈ ["down"; "timeout"; "error"])
  \/ (handled = Raise e /\ isinstance e Exception = false).
Proof.
  intros handled. subst handled.
  destruct (isinstance e Exception) eqn:He.
  - left. destruct (outer_handlers server name port Hname Hport e He)
      as (st & er & H & Hin & _). by exists st, er.
  - right. split; [| done].
    assert (Hc : isinstance e ConnectionRefusedError = false).
    { unfold isinstance in *. by destruct (exc_cls e). }
    assert (Ht : isinstance e SocketTimeout = false).
    { unfold isinstance in *. by destruct (exc_cls e). }
    unfold try_except. cbn [select_handler existsb].
    by rewrite Hc, Ht, He.
Qed.

(** Every report of [check_server] is of one of two kinds. *)
Lemma check_server_cases (d : gmap string pyval) :
  check_server lib net server = Return d ->
  (exists r data, probe net port = Return r /\ status r = 200
                  /\ body_json lib r = Return data
                  /\ d = running_report name data)
  \/ (exists st er, d = failure_report name st er
                    /\ st ∈ ["down"; "timeout"; "error"]).
Proof.
  unfold probe, check_server.
  rewrite (getitem_port server port Hport). cbn [mbind res_bind].
  destruct (http_get net "localhost" port 2 "/health") as [r|e];
    cbn [mbind res_bind].
  - destruct (Z.eqb_spec (status r) 200) as [H200 | Hne].
    + rewrite (inner_try lib server name Hname).
      destruct (body_json lib r) as [data|e] eqn:Hb.
      * intros [= <-]. left. exists r, data. rewrite H200. by repeat split.
      * destruct (isinstance e JSONDecodeError
                  || isinstance e UnicodeDecodeError).
        -- intros [= <-]. right. exists "error", "Invalid JSON response".
           split; [done | set_solver].
        -- intros H. right.
           destruct (outer_handlers_cases e)
             as [(st & er & Hh & Hin) | (Hh & _)];
             rewrite Hh in H; [| discriminate H].
           injection H as <-. by exists st, er.
    + rewrite (getitem_name server name Hname). intros [= <-]. right.
      eexists "error", _. split; [reflexivity | set_solver].
  - intros H. right.
    destruct (outer_handlers_cases e) as [(st & er & Hh & Hin) | (Hh & _)];
      rewrite Hh in H; [| discriminate H].
    injection H as <-. by exists st, er.
Qed.

End HealthCheckMore.

(** X13: a server is reported ["running"] exactly when its probe was
    answered with status 200 and a body that parses as JSON; the report
    then holds the status code 200 and the parsed body, and no other
    outcome of the probe is ever reported as running. *)
Theorem check_server_running_iff
    (lib : Lib) (net : Net) (server : gmap string pyval)
    (name port : pyval) :
  server !! "name" = Some name -> server !! "port" = Some port ->
  (field (check_server lib net server) "status" = Some (PStr "running")
   <-> exists r data, probe net port = Return r /\ status r = 200
                      /\ body_json lib r = Return data)
  /\ (forall r data, probe net port = Return r -> status r = 200 ->
        body_json lib r = Return data ->
        check_server lib net server = Return (running_report name data)).
Proof.
  intros Hname Hport.
  assert (Hrun : forall r data, probe net port = Return r ->
            status r = 200 -> body_json lib r = Return data ->
            check_server lib net server = Return (running_report name data)).
  { unfold probe. intros r data Hp Hs Hb. unfold check_server.
    rewrite (getitem_port server port Hport). cbn [mbind res_bind].
    rewrite Hp. cbn [mbind res_bind].
    destruct (Z.eqb_spec (status r) 200) as [_ | Hne]; [| done].
    rewrite (inner_try lib server name Hname), Hb, Hs. reflexivity. }
  split; [| exact Hrun]. split.
  - destruct (check_server lib net server) as [d|e] eqn:Hd; [| discriminate].
    cbn [field]. intros Hst.
    destruct (check_server_cases lib net server name port Hname Hport d Hd)
      as [(r & data & Hp & Hs & Hb & _) | (st & er & -> & Hin)].
    + by exists r, data.
    + exfalso.
      change (Some (PStr st) = Some (PStr "running")) in Hst.
      injection Hst as ->. apply list_elem_of_In in Hin. simpl in Hin.
      intuition discriminate.
  - intros (r & data & Hp & Hs & Hb). by rewrite (Hrun r data Hp Hs Hb).
Qed.

(** Port 13000 of the sample network answers 200 with [{}]; port 13005
    answers 200 and then stalls. *)
Lemma check_server_running_iff_witness :
  (field (check_server sample_lib sample_net (server_entry "Memory" 13000))
     "status" = Some (PStr "running")
   <-> exists r data, probe sample_net (PInt 13000) = Return r
                      /\ status r = 200
                      /\ body_json sample_lib r = Return data)
  /\ (forall r data, probe sample_net (PInt 13000) = Return r ->
        status r = 200 ->
        body_json sample_lib r = Return data ->
        check_server sample_lib sample_net (server_entry "Memory" 13000)
        = Return (running_report (PStr "Memory") data)).
Proof.
  apply (check_server_running_iff sample_lib sample_net
           (server_entry "Memory" 13000) (PStr "Memory") (PInt 13000));
    reflexivity.
Defined.

(** X14: the two kinds of report.  A report has either the keys [name],
    [status], [status_code], [response], with status ["running"] and
    status code 200, or the keys [name], [status], [error], with a
    status among ["down"], ["timeout"], ["error"] and a string as error;
    [name] is the server's name in both.  So a running report always has
    a status code and any other report always has an error text. *)
Theorem check_server_report_keys
    (lib : Lib) (net : Net) (server : gmap string pyval)
    (name port : pyval) (d : gmap string pyval) :
  server !! "name" = Some name -> server !! "port" = Some port ->
  check_server lib net server = Return d ->
  d !! "name" = Some name
  /\ ((dom d = {[ "name"; "status"; "status_code"; "response" ]}
       /\ d !! "status" = Some (PStr "running")
       /\ d !! "status_code" = Some (PInt 200))
      \/ (dom d = {[ "name"; "status"; "error" ]}
          /\ (exists st, d !! "status" = Some (PStr st)
                         /\ st ∈ ["down"; "timeout"; "error"])
          /\ exists er, d !! "error" = Some (PStr er))).
Proof.
  intros Hname Hport Hd.
  destruct (check_server_cases lib net server name port Hname Hport d Hd)
    as [(r & data & _ & _ & _ & ->) | (st & er & -> & Hin)].
  - split; [done |]. left. split; [| done].
    unfold running_report, mkdict. cbn [foldl fst snd].
    rewrite !dom_insert_L, dom_empty_L. set_solver.
  - split; [done |]. right. split; [| split; by eexists].
    unfold failure_report, mkdict. cbn [foldl fst snd].
    rewrite !dom_insert_L, dom_empty_L. set_solver.
Qed.

(** The report for port 13003, which answers 503. *)
Lemma check_server_report_keys_witness :
  failure_report (PStr "Kubectl") "error" "HTTP 503 Service Unavailable"
    !! "name" = Some (PStr "Kubectl")
  /\ ((dom (failure_report (PStr "Kubectl") "error"
              "HTTP 503 Service Unavailable")
       = {[ "name"; "status"; "status_code"; "response" ]}
       /\ failure_report (PStr "Kubectl") "error"
            "HTTP 503 Service Unavailable" !! "status"
          = Some (PStr "running")
       /\ failure_report (PStr "Kubectl") "error"
            "HTTP 503 Service Unavailable" !! "status_code"
          = Some (PInt 200))
      \/ (dom (failure_report (PStr "Kubectl") "error"
                 "HTTP 503 Service Unavailable")
          = {[ "name"; "status"; "error" ]}
          /\ (exists st,
                failure_report (PStr "Kubectl") "error"
                  "HTTP 503 Service Unavailable" !! "status"
                = Some (PStr st)
                /\ st ∈ ["down"; "timeout"; "error"])
          /\ exists er,
               failure_report (PStr "Kubectl") "error"
                 "HTTP 503 Service Unavailable" !! "error"
               = Some (PStr er))).
Proof.
  apply (check_server_report_keys sample_lib sample_net
           (server_entry "Kubectl" 13003) (PStr "Kubectl") (PInt 13003));
    reflexivity.
Defined.

(** X15: a server that answers 200 and then stalls, so that reading the
    body times out, is reported with status ["timeout"], not ["error"]:
    a [socket.timeout] raised inside the inner [try] is not one of its
    two classes and reaches the outer clause for timeouts. *)
Theorem check_server_body_timeout
    (lib : Lib) (net : Net) (server : gmap string pyval)
    (name port : pyval) (r : HTTPResponse) (e : exc) :
  server !! "name" = Some name -> server !! "port" = Some port ->
  probe net port = Return r -> status r = 200 ->
  body_json lib r = Raise e -> exc_cls e = SocketTimeout ->
  check_server lib net server
  = Return (failure_report name "timeout" "Request timed out").
Proof.
  unfold probe. intros Hname Hport Hp Hs Hb Hc. unfold check_server.
  rewrite (getitem_port server port Hport). cbn [mbind res_bind].
  rewrite Hp. cbn [mbind res_bind].
  destruct (Z.eqb_spec (status r) 200) as [_ | Hne]; [| done].
  rewrite (inner_try lib server name Hname), Hb.
  replace (isinstance e JSONDecodeError || isinstance e UnicodeDecodeError)
    with false by (unfold isinstance; by rewrite Hc).
  destruct (outer_handlers server name port Hname Hport e)
    as (st & er & -> & _ & _ & Ht); [unfold isinstance; by rewrite Hc |].
  destruct Ht as [-> ->]; [unfold isinstance; by rewrite Hc .. | reflexivity].
Qed.

(** Port 13005 of the sample network. *)
Lemma check_server_body_timeout_witness :
  check_server sample_lib sample_net (server_entry "Minikube" 13005)
  = Return (failure_report (PStr "Minikube") "timeout" "Request timed out").
Proof.
  apply (check_server_body_timeout sample_lib sample_net
           (server_entry "Minikube" 13005) (PStr "Minikube") (PInt 13005)
           {| status := 200; reason := "OK"; read := Raise timed_out |}
           timed_out); reflexivity.
Defined.

(** A batch with a check that raises ends with an exception. *)
Lemma mapM_raises {A B} (f : A -> res B) (xs : list A) (x : A) :
  x ∈ xs -> (exists e, f x = Raise e) -> exists e, mapM f xs = Raise e.
Proof.
  intros Hin [e He]. induction xs as [| y ys IH]; [by apply elem_of_nil in Hin |].
  cbn [mapM]. apply elem_of_cons in Hin as [<- | Hin].
  - rewrite He. by exists e.
  - destruct (f y) as [b|e']; [| by exists e']. cbn [mbind res_bind].
    destruct (IH Hin) as [e'' ->]. by exists e''.
Qed.

(** X16: a server entry without a ['port'] or without a ['name'] key
    never yields a report: [check_server] raises for it, whatever the
    network answers, and a batch that contains such an entry ends with
    an exception instead of a list of reports. *)
Theorem check_server_missing_key
    (lib : Lib) (net : Net) (server : gmap string pyval) :
  server !! "port" = None \/ server !! "name" = None ->
  (exists e, check_server lib net server = Raise e)
  /\ forall servers, server ∈ servers ->
       exists e, check_all lib net servers = Raise e.
Proof.
  intros Hmiss.
  assert (Hraise : exists e, check_server lib net server = Raise e).
  { destruct (server !! "port") as [port|] eqn:Hport.
    - destruct Hmiss as [Hmiss | Hname]; [discriminate Hmiss |].
      assert (Hg : getitem server "name" = Raise (mkExc KeyError "'name'"))
        by (unfold getitem; by rewrite Hname).
      unfold check_server. rewrite (getitem_port server port Hport), Hg.
      cbn [mbind res_bind].
      assert (Hout : forall e, exists e',
        try_except (A := gmap string pyval) (Raise e)
          [ ([ConnectionRefusedError],
             fun _ => Raise (mkExc KeyError "'name'"));
            ([SocketTimeout], fun _ => Raise (mkExc KeyError "'name'"));
            ([Exception], fun _ => Raise (mkExc KeyError "'name'")) ]
        = Raise e').
      { intros e. unfold try_except. cbn [select_handler existsb].
        destruct (isinstance e ConnectionRefusedError); cbn [orb];
          [by eexists |].
        destruct (isinstance e SocketTimeout); cbn [orb]; [by eexists |].
        destruct (isinstance e Exception); by eexists. }
      destruct (http_get net "localhost" port 2 "/health") as [r|e];
        cbn [mbind res_bind]; [| apply Hout].
      destruct (status r =? 200); [| apply Hout].
      assert (Hin : exists e',
        try_except (A := gmap string pyval)
          (raw ← read r;
           text ← decode_utf8 lib raw;
           data ← json_loads lib text;
           Raise (mkExc KeyError "'name'"))
          [ ([JSONDecodeError; UnicodeDecodeError],
             fun _ => Raise (mkExc KeyError "'name'")) ]
        = Raise e').
      { assert (Hh : forall e, exists e',
          try_except (A := gmap string pyval) (Raise e)
            [ ([JSONDecodeError; UnicodeDecodeError],
               fun _ => Raise (mkExc KeyError "'name'")) ]
          = Raise e').
        { intros e. unfold try_except. cbn [select_handler existsb].
          destruct (isinstance e JSONDecodeError
                    || (isinstance e UnicodeDecodeError || false));
            by eexists. }
        destruct (read r) as [raw|e]; cbn [mbind res_bind]; [| apply Hh].
        destruct (decode_utf8 lib raw) as [text|e]; cbn [mbind res_bind];
          [| apply Hh].
        destruct (json_loads lib text) as [data|e]; cbn [mbind res_bind];
          apply Hh. }
      destruct Hin as [e' ->]. apply Hout.
    - unfold check_server, getitem. rewrite Hport. by eexists. }
  split; [exact Hraise |].
  intros servers Hin. unfold check_all.
  by apply (mapM_raises (check_server lib net) servers server).
Qed.

(** An entry with a port and no name, on the sample network. *)
Lemma check_server_missing_key_witness :
  (exists e,
     check_server sample_lib sample_net (mkdict [("port", PInt 13000)])
     = Raise e)
  /\ forall servers, mkdict [("port", PInt 13000)] ∈ servers ->
       exists e, check_all sample_lib sample_net servers = Raise e.
Proof.
  apply (check_server_missing_key sample_lib sample_net
           (mkdict [("port", PInt 13000)])).
  right. reflexivity.
Defined.

(** *** Printing the reports *)

Lemma eq_str_true (v : pyval) (s : string) :
  eq_str v s = true <-> v = PStr s.
Proof.
  destruct v; cbn [eq_str]; try (split; [discriminate | discriminate]).
  destruct (String.eqb_spec s0 s) as [-> | Hne]; split; try done.
  intros [= ->]. done.
Qed.

(** The count is the number of running results, at most the total. *)
Lemma count_running_spec (results : list (gmap string pyval)) (n : nat) :
  count_running results = Return n ->
  (n <= length results)%nat
  /\ (n = length results <-> Forall is_running results).
Proof.
  revert n. induction results as [| r rest IH]; intros n H.
  - injection H as <-. split; [done |]. split; [constructor | done].
  - cbn [count_running] in H. unfold getitem in H.
    destruct (r !! "status") as [st|] eqn:Hst; [| discriminate H].
    cbn [mbind res_bind] in H.
    destruct (count_running rest) as [m|e]; [| discriminate H].
    cbn [mbind res_bind] in H. injection H as <-.
    destruct (IH m eq_refl) as [Hle Hall]. cbn [length].
    destruct (eq_str st "running") eqn:Heq.
    + apply eq_str_true in Heq as ->. split; [lia |].
      rewrite Forall_cons. unfold is_running at 1. rewrite <- Hall. split.
      * intros Hn. split; [done | lia].
      * intros [_ ->]. lia.
    + split; [lia |]. split; [lia |].
      rewrite Forall_cons. unfold is_running at 1. intros [Hr _].
      rewrite Hst in Hr. injection Hr as ->.
      by rewrite (proj2 (eq_str_true _ _) eq_refl) in Heq.
Qed.

Lemma then_print_return {A B} (m : printed A) (k : A -> printed B)
    (texts : list string) (b : B) :
  then_print m k = (texts, Return b) ->
  exists l1 a l2,
    m = (l1, Return a) /\ k a = (l2, Return b) /\ texts = (l1 ++ l2)%list.
Proof.
  unfold then_print. destruct m as [l1 [a|e]]; [| discriminate].
  destruct (k a) as [l2 o] eqn:Hk. intros [= <- ->]. by exists l1, a, l2.
Qed.

Lemma emit_return (fmt : Fmt) (text : string) (texts : list string)
    (u : unit) :
  emit fmt text = (texts, Return u) -> texts = [text].
Proof.
  unfold emit. destruct (stdout_write fmt text); [| discriminate].
  by intros [= <-].
Qed.

Lemma emit_accepted (fmt : Fmt) (text : string) :
  stdout_write fmt text = Return tt -> emit fmt text = ([text], Return tt).
Proof. unfold emit. by intros ->. Qed.

Lemma print_each_length (fmt : Fmt) (results : list (gmap string pyval))
    (lines : list string) (outcome : res unit) :
  print_each fmt results = (lines, outcome) ->
  (length lines <= length results)%nat
  /\ (outcome = Return tt -> length lines = length results).
Proof.
  revert lines outcome.
  induction results as [| r rest IH]; intros lines outcome H.
  - injection H as <- <-. done.
  - cbn [print_each] in H. unfold then_print, quiet, emit in H.
    destruct (result_line fmt r) as [line|e].
    + destruct (stdout_write fmt line) as [u|e].
      * destruct (print_each fmt rest) as [ls o].
        injection H as <- <-. destruct (IH ls o eq_refl) as [Hle Heq].
        cbn [length app]. split; [lia |]. intros Ho. by rewrite (Heq Ho).
      * injection H as <- <-. cbn [length]. split; [lia | discriminate].
    + injection H as <- <-. cbn [length]. split; [lia | discriminate].
Qed.

(** The last statements of [print_results], from the summary line on,
    print [summary running total] when they return. *)
Lemma summary_printed (fmt : Fmt) (running total : nat)
    (texts : list string) :
  then_print
    (if (running =? total)%nat then
       emit fmt (icon_ok +:+ " All " +:+ pretty running
                 +:+ " MCP servers are running!")
     else
       emit fmt (icon_warn +:+ "  " +:+ pretty running +:+ " of "
                 +:+ pretty total +:+ " MCP servers are running")) (fun _ =>
  then_print (emit fmt (nl +:+ icon_idea +:+ " Next Steps:")) (fun _ =>
  then_print
    (if (running <? total)%nat then
       then_print
         (emit fmt "1. Start the MCP servers with: npm run mcp:start")
         (fun _ =>
          emit fmt "2. For development with auto-reload: npm run mcp:dev")
     else quiet (Return tt)) (fun _ =>
  then_print (emit fmt "3. Run integration tests: npm test") (fun _ =>
  emit fmt "4. Start development server: npm run dev"))))
  = (texts, Return tt) ->
  texts = summary running total.
Proof.
  intros H. unfold summary.
  apply then_print_return in H as (l1 & [] & t1 & H1 & H & ->).
  apply then_print_return in H as (l2 & [] & t2 & H2 & H & ->).
  apply then_print_return in H as (l3 & [] & t3 & H3 & H & ->).
  apply then_print_return in H as (l4 & [] & t4 & H4 & H & ->).
  apply emit_return in H2 as ->, H4 as ->, H as ->.
  destruct (running =? total)%nat; apply emit_return in H1 as ->;
    (destruct (running <? total)%nat;
     [ apply then_print_return in H3 as (l5 & [] & t5 & H5 & H6 & ->);
       apply emit_return in H5 as ->, H6 as ->
     | injection H3 as <- ]); reflexivity.
Qed.

(** X17: what [print_results] prints when it returns: two header lines,
    one line per result, a rule, and a summary that is consistent with
    itself.  Either every result is running (also when there is none):
    then the summary reads "All N ... running" and is followed by the
    steps 3 and 4 only; or some result is not running: then it reads
    "K of N" with K < N and the steps 1 to 4 all follow.  The start-up
    hints are never printed together with the "All" line, nor left out
    with the "K of N" line. *)
Theorem print_results_summary
    (fmt : Fmt) (results : list (gmap string pyval))
    (lines : list string) :
  print_results fmt results = (lines, Return tt) ->
  exists body running,
    length body = length results
    /\ count_running results = Return running
    /\ lines
       = ([ nl +:+ icon_search +:+ " MCP Server Status"; rule_line ]
          ++ body ++ [ nl +:+ rule_line ]
          ++ summary running (length results))%list
    /\ ((Forall is_running results
         /\ running = length results
         /\ summary running (length results)
            = [ icon_ok +:+ " All " +:+ pretty running
                +:+ " MCP servers are running!";
                nl +:+ icon_idea +:+ " Next Steps:";
                "3. Run integration tests: npm test";
                "4. Start development server: npm run dev" ])
        \/ (~ Forall is_running results
            /\ (running < length results)%nat
            /\ summary running (length results)
               = [ icon_warn +:+ "  " +:+ pretty running +:+ " of "
                   +:+ pretty (length results)
                   +:+ " MCP servers are running";
                   nl +:+ icon_idea +:+ " Next Steps:";
                   "1. Start the MCP servers with: npm run mcp:start";
                   "2. For development with auto-reload: npm run mcp:dev";
                   "3. Run integration tests: npm test";
                   "4. Start development server: npm run dev" ])).
Proof.
  unfold print_results. intros H.
  apply then_print_return in H as (l1 & [] & t1 & H1 & H & ->).
  apply then_print_return in H as (l2 & [] & t2 & H2 & H & ->).
  apply then_print_return in H as (body & [] & t3 & Hbody & H & ->).
  apply then_print_return in H as (l4 & [] & t4 & H4 & H & ->).
  apply then_print_return in H as (l5 & running & t5 & Hcount & H & ->).
  apply emit_return in H1 as ->, H2 as ->, H4 as ->.
  injection Hcount as <- Hcount. cbv zeta in H.
  apply summary_printed in H as ->.
  exists body, running.
  destruct (print_each_length fmt results body (Return tt) Hbody) as [_ Hlen].
  destruct (count_running_spec results running Hcount) as [Hle Hall].
  split; [by apply Hlen |]. split; [done |]. split; [done |].
  unfold summary.
  destruct (Nat.eqb_spec running (length results)) as [Heq | Hne].
  - left. split; [by apply Hall |]. split; [done |].
    destruct (Nat.ltb_spec running (length results)); [lia | done].
  - right. split; [by rewrite <- Hall |]. split; [lia |].
    destruct (Nat.ltb_spec running (length results)); [done | lia].
Qed.

(** One running and one refused server. *)
Lemma print_results_summary_witness :
  exists body running,
    length body
    = length [ running_report (PStr "Memory") (PDict ∅);
               failure_report (PStr "Helm") "down" "Connection refused" ]
    /\ count_running
         [ running_report (PStr "Memory") (PDict ∅);
           failure_report (PStr "Helm") "down" "Connection refused" ]
       = Return running
    /\ (print_results sample_fmt
          [ running_report (PStr "Memory") (PDict ∅);
            failure_report (PStr "Helm") "down" "Connection refused" ]).1
       = ([ nl +:+ icon_search +:+ " MCP Server Status"; rule_line ]
          ++ body ++ [ nl +:+ rule_line ]
          ++ summary running 2)%list
    /\ ((Forall is_running
           [ running_report (PStr "Memory") (PDict ∅);
             failure_report (PStr "Helm") "down" "Connection refused" ]
         /\ running = 2%nat
         /\ summary running 2
            = [ icon_ok +:+ " All " +:+ pretty running
                +:+ " MCP servers are running!";
                nl +:+ icon_idea +:+ " Next Steps:";
                "3. Run integration tests: npm test";
                "4. Start development server: npm run dev" ])
        \/ (~ Forall is_running
                [ running_report (PStr "Memory") (PDict ∅);
                  failure_report (PStr "Helm") "down" "Connection refused" ]
            /\ (running < 2)%nat
            /\ summary running 2
               = [ icon_warn +:+ "  " +:+ pretty running +:+ " of "
                   +:+ pretty 2%nat
                   +:+ " MCP servers are running";
                   nl +:+ icon_idea +:+ " Next Steps:";
                   "1. Start the MCP servers with: npm run mcp:start";
                   "2. For development with auto-reload: npm run mcp:dev";
                   "3. Run integration tests: npm test";
                   "4. Start development server: npm run dev" ])).
Proof.
  apply (print_results_summary sample_fmt
           [ running_report (PStr "Memory") (PDict ∅);
             failure_report (PStr "Helm") "down" "Connection refused" ]).
  reflexivity.
Defined.

(** The line of a report of [check_server] for a server with a string as
    name is always produced. *)
Lemma result_line_of_report (fmt : Fmt) (n : string)
    (d : gmap string pyval) :
  (exists data, d = running_report (PStr n) data)
  \/ (exists st er, d = failure_report (PStr n) st er) ->
  exists line, result_line fmt d = Return line
               /\ exists st, d !! "status" = Some (PStr st).
Proof.
  intros [(data & ->) | (st & er & ->)].
  - eexists. split; [reflexivity | by eexists].
  - unfold result_line, getitem.
    change (failure_report (PStr n) st er !! "status") with (Some (PStr st)).
    change (failure_report (PStr n) st er !! "name") with (Some (PStr n)).
    cbn [mbind res_bind eq_str call_ljust call_upper].
    destruct (String.eqb st "running"); eexists;
      (split; [reflexivity | by eexists]).
Qed.

Lemma mapM_returns {A B} (f : A -> res B) (xs : list A) (ys : list B) :
  mapM f xs = Return ys -> Forall2 (fun x y => f x = Return y) xs ys.
Proof.
  revert ys. induction xs as [| x xs IH]; intros ys H.
  - injection H as <-. constructor.
  - cbn [mapM] in H. destruct (f x) as [y|e] eqn:Hx; [| discriminate H].
    cbn [mbind res_bind] in H.
    destruct (mapM f xs) as [ys'|e]; [| discriminate H].
    cbn [mbind res_bind] in H. injection H as <-.
    constructor; [done | by apply IH].
Qed.

(** The reports of servers with string names are all printed, on a
    standard output that takes every text. *)
Lemma print_reports (lib : Lib) (net : Net) (fmt : Fmt)
    (servers reports : list (gmap string pyval)) :
  (forall text, stdout_write fmt text = Return tt) ->
  Forall (fun s => exists n port,
            s !! "name" = Some (PStr n) /\ s !! "port" = Some port) servers ->
  check_all lib net servers = Return reports ->
  length reports = length servers
  /\ exists body running,
       print_each fmt reports = (body, Return tt)
       /\ count_running reports = Return running.
Proof.
  intros Hout Hs Hall. apply mapM_returns in Hall.
  induction Hall as [| s d servers reports Hd _ IH];
    [split; [done | by exists [], 0%nat] |].
  apply Forall_cons in Hs as [(n & port & Hname & Hport) Hs].
  destruct (IH Hs) as (Hlen & body & running & Hbody & Hcount).
  split; [cbn [length]; by rewrite Hlen |].
  destruct (result_line_of_report fmt n d) as (line & Hline & st & Hst).
  { destruct (check_server_cases lib net s (PStr n) port Hname Hport d Hd)
      as [(r & data & _ & _ & _ & ->) | (st & er & -> & _)];
      [left | right]; by repeat eexists. }
  exists (line :: body), ((if eq_str (PStr st) "running" then 1 else 0)
                          + running)%nat.
  cbn [print_each count_running]. rewrite Hline.
  unfold quiet. cbn [then_print]. rewrite (emit_accepted fmt line (Hout line)).
  cbn [then_print]. rewrite Hbody. split; [reflexivity |].
  unfold getitem. rewrite Hst. cbn [mbind res_bind]. by rewrite Hcount.
Qed.

(** The number of [print] calls when the loop and the count return and
    the standard output takes every text. *)
Lemma print_results_length (fmt : Fmt) (results : list (gmap string pyval))
    (body : list string) (running : nat) :
  (forall text, stdout_write fmt text = Return tt) ->
  print_each fmt results = (body, Return tt) ->
  count_running results = Return running ->
  exists texts,
    print_results fmt results = (texts, Return tt)
    /\ ((Forall is_running results
         /\ length texts = (length results + 7)%nat)
        \/ (~ Forall is_running results
            /\ length texts = (length results + 9)%nat)).
Proof.
  intros Hout Hbody Hcount.
  destruct (print_each_length fmt results body (Return tt) Hbody)
    as [_ Hb]. specialize (Hb eq_refl).
  destruct (count_running_spec results running Hcount) as [Hle Hiff].
  assert (Hemit : forall text, emit fmt text = ([text], Return tt))
    by (intros text; apply emit_accepted, Hout).
  unfold print_results. rewrite Hbody, Hcount. unfold quiet.
  rewrite !Hemit. cbn [then_print]. cbv zeta.
  destruct (Nat.eqb_spec running (length results)) as [Heq | Hne].
  - destruct (Nat.ltb_spec running (length results)); [lia |].
    rewrite !Hemit. cbn [then_print]. eexists. split; [reflexivity |].
    left. split; [by apply Hiff |].
    rewrite !length_app. cbn [length]. lia.
  - destruct (Nat.ltb_spec running (length results)); [| lia].
    rewrite !Hemit. cbn [then_print]. eexists. split; [reflexivity |].
    right. split; [by rewrite <- Hiff |].
    rewrite !length_app. cbn [length]. lia.
Qed.

(** X18: the reports of [check_server] are always printable.  For
    servers whose names are strings and a standard output that takes
    every text, [print_results] applied to the reports of a batch never
    raises: every key it reads is there and of the right type.  It makes
    one [print] call per server besides 7 others when all servers are
    running, and besides 9 others otherwise. *)
Theorem print_results_accepts_reports
    (lib : Lib) (net : Net) (fmt : Fmt)
    (servers reports : list (gmap string pyval)) :
  (forall text, stdout_write fmt text = Return tt) ->
  Forall (fun s => exists n port,
            s !! "name" = Some (PStr n) /\ s !! "port" = Some port) servers ->
  check_all lib net servers = Return reports ->
  exists texts,
    print_results fmt reports = (texts, Return tt)
    /\ length reports = length servers
    /\ ((Forall is_running reports
         /\ length texts = (length servers + 7)%nat)
        \/ (~ Forall is_running reports
            /\ length texts = (length servers + 9)%nat)).
Proof.
  intros Hout Hs Hall.
  destruct (print_reports lib net fmt servers reports Hout Hs Hall)
    as (Hlen & body & running & Hbody & Hcount).
  destruct (print_results_length fmt reports body running Hout Hbody Hcount)
    as (texts & Htexts & Hn).
  exists texts. rewrite <- Hlen. by repeat split.
Qed.

(** Two servers of the sample network, one running and one refusing. *)
Lemma print_results_accepts_reports_witness :
  exists texts,
    print_results sample_fmt
      [ running_report (PStr "Memory") (PDict ∅);
        failure_report (PStr "Filesystem") "down" "Connection refused" ]
    = (texts, Return tt)
    /\ length [ running_report (PStr "Memory") (PDict ∅);
                failure_report (PStr "Filesystem") "down"
                  "Connection refused" ]
       = length [ server_entry "Memory" 13000;
                  server_entry "Filesystem" 13001 ]
    /\ ((Forall is_running
           [ running_report (PStr "Memory") (PDict ∅);
             failure_report (PStr "Filesystem") "down" "Connection refused" ]
         /\ length texts
            = (length [ server_entry "Memory" 13000;
                        server_entry "Filesystem" 13001 ] + 7)%nat)
        \/ (~ Forall is_running
                [ running_report (PStr "Memory") (PDict ∅);
                  failure_report (PStr "Filesystem") "down"
                    "Connection refused" ]
            /\ length texts
               = (length [ server_entry "Memory" 13000;
                           server_entry "Filesystem" 13001 ] + 9)%nat)).
Proof.
  apply (print_results_accepts_reports sample_lib sample_net sample_fmt
           [ server_entry "Memory" 13000; server_entry "Filesystem" 13001 ]).
  - reflexivity.
  - repeat constructor; do 2 eexists; split; reflexivity.
  - reflexivity.
Defined.

(** X19: [main] as a whole.  When the probes of the six configured
    servers fail, if at all, with failures proper, and the standard
    output takes every text, [main] never raises: it prints the
    announcement and then the report of all six servers, in 14 [print]
    calls when every server is running and in 16 otherwise. *)
Theorem run_main_prints_report (lib : Lib) (net : Net) (fmt : Fmt) :
  (forall text, stdout_write fmt text = Return tt) ->
  Forall (checkable lib net) MCP_SERVERS ->
  exists reports texts,
    main lib net = Return reports
    /\ length reports = 6%nat
    /\ run_main lib net fmt
       = ((icon_search +:+ " Checking MCP servers...") :: texts, Return tt)
    /\ ((Forall is_running reports /\ length texts = 13%nat)
        \/ (~ Forall is_running reports /\ length texts = 15%nat)).
Proof.
  intros Hout Hall.
  destruct (mapM_all_return (check_server lib net) MCP_SERVERS)
    as (reports & Hmap & _).
  { eapply Forall_impl; [exact Hall |].
    intros server (name & port & Hname & Hport & Hfail). cbn beta.
    destruct (check_server_total lib net server name port Hname Hport Hfail)
      as (d & Hd & _). by exists d. }
  assert (Hnames : Forall (fun s => exists n port,
            s !! "name" = Some (PStr n) /\ s !! "port" = Some port)
            MCP_SERVERS)
    by (repeat constructor; do 2 eexists; split; reflexivity).
  destruct (print_reports lib net fmt MCP_SERVERS reports Hout Hnames Hmap)
    as (Hlen & body & running & Hbody & Hcount).
  destruct (print_results_length fmt reports body running Hout Hbody Hcount)
    as (texts & Htexts & Hn).
  exists reports, texts. unfold run_main, main, check_all.
  rewrite Hmap, (emit_accepted fmt _ (Hout _)). unfold quiet.
  cbn [then_print]. rewrite Htexts. rewrite Hlen in Hn. by repeat split.
Qed.

(** The sample network, on which one of the six servers is running. *)
Lemma run_main_prints_report_witness :
  exists reports texts,
    main sample_lib sample_net = Return reports
    /\ length reports = 6%nat
    /\ run_main sample_lib sample_net sample_fmt
       = ((icon_search +:+ " Checking MCP servers...") :: texts, Return tt)
    /\ ((Forall is_running reports /\ length texts = 13%nat)
        \/ (~ Forall is_running reports /\ length texts = 15%nat)).
Proof.
  apply (run_main_prints_report sample_lib sample_net sample_fmt).
  - reflexivity.
  - exact sample_servers_checkable.
Defined.

(** On a standard output whose encoding is ASCII, [main] raises at its
    first [print] and probes nothing. *)
Example run_main_ascii_stdout :
  run_main sample_lib sample_net ascii_fmt
  = ([], Raise (mkExc UnicodeEncodeError
                  "'ascii' codec can't encode characters")).
Proof. reflexivity. Qed.

(** The variant with a shared list answers differently the second time:
    the store tells it apart from the program. *)
Example shared_list_variant_differs :
  match Store.variant_with_shared_list (Store.VRef 2%nat) "sudo ls"
          (Store.VRef 1%nat) Store.sample_store with
  | Return (r1, h1) =>
      match Store.variant_with_shared_list (Store.VRef 2%nat) "sudo ls"
              (Store.VRef 1%nat) h1 with
      | Return (r2, h2) =>
          Store.view 2 h1 r1 <> Store.view 2 h2 r2
          /\ h1 !! 2%nat <> Store.sample_store !! 2%nat
      | Raise _ => False
      end
  | Raise _ => False
  end.
Proof. vm_compute. split; discriminate. Qed.
